(** * Quanta: the QuantumCalculator of [Quanta.py] and its GUI handlers

    A shallow embedding of [QuantumCalculator] (observe_qubits,
    calculate_error_rates, calculate_gate_variables, calculate_spin,
    grovers_speed_between_qubits) and of the handlers of
    [QuantumVerseCalculatorGUI] that guard and call it.

    The program is written against two external libraries, a circuit
    builder ([QuantumCircuit]) and a simulator backend ([AerSimulator]).
    Neither is part of the repository.  The circuit builder is modelled by
    its construction interface (an instruction list with the argument
    checks the builder performs).  The backend is kept abstract: a section
    fixes an arbitrary state-evolution function and an arbitrary per-shot
    sampling function, and the tabulation of the sampled shots into an
    outcome table is written out; the registers and shot counts that the
    backend accepts are bounded by a capacity of the installation. *)

From Stdlib Require Import ZArith QArith Qabs Lia List Ascii String Floats.
From stdpp Require Import base option strings list gmap fin_maps.

Local Open Scope string_scope.
Local Open Scope Z_scope.

(** ** Exceptions, log records and the world *)

(** The Python exceptions that the modelled code raises or lets through.
    The payload is the exception's message. *)
Inductive Exception : Type :=
  | ValueError (msg : string)
  | ImportError (msg : string)
  | ZeroDivisionError
  | OverflowError (msg : string)
  | CircuitError (msg : string)
  | QiskitError (msg : string)
  | AerError (msg : string).

Inductive result (A : Type) : Type :=
  | Ok (a : A)
  | Raise (e : Exception).
Arguments Ok {A} a.
Arguments Raise {A} e.

(** Python's [float]: IEEE 754 binary64.  The calculator only passes
    angles through; it never computes with them. *)
Definition float : Type := PrimFloat.float.

(** An outcome table ([Dict[str, int]]): bitstring to count. *)
Abbreviation Counts := (gmap string nat).

(** The seed of one simulator execution. *)
Definition Seed : Type := Z.

(** What [logging.info] / [logging.error] write, kept structured: the
    f-string's arguments instead of its rendering. *)
Inductive LogMsg : Type :=
  | MsgObserved (counts : Counts)
  | MsgErrorRate (error_rate : Q)
  | MsgAppliedGate (gate_type : string) (angle : float) (qubit : Z)
  | MsgSpin (spin : Q)
  | MsgGroverIterations (iterations : Z)
  | MsgGroverModuleNotFound
  | MsgErrorIn (where_ : string) (e : Exception)
  | MsgText (text : string).

Inductive Level : Type := INFO | ERROR.

(** The part of the process state that the calculator reads or writes.
    - [entropy k] is the seed that the backend draws for its [k]-th
      execution: the program never passes a seed of its own
      ([AerSimulator(method='statevector')], [run(circuit, shots=shots)]),
      so every execution is seeded afresh by the backend;
    - [runs] counts the backend executions so far;
    - [circuits] counts the circuit objects constructed so far;
    - [log] is the log file, oldest record first;
    - [grover_module] tells whether [from qiskit.algorithms import Grover]
      succeeds in this installation;
    - [qubit_room] and [shot_room] give the capacity of the backend of
      this installation.  The statevector of [n] qubits has [2^n]
      amplitudes, so the memory of the machine bounds the registers
      that the backend simulates, and the backend bounds the number of
      shots of one execution.  The program runs a one-qubit circuit
      with 1024 shots without any check of its own ([calculate_spin]);
      the backend is taken to perform at least that, and its capacity
      is recorded as what it performs beyond it: registers of up to
      [1 + qubit_room] qubits and executions of up to [1024 +
      shot_room] shots. *)
Record World : Type := mkWorld {
  entropy : nat -> Seed;
  runs : nat;
  circuits : nat;
  log : list (Level * LogMsg);
  grover_module : bool;
  qubit_room : N;
  shot_room : N
}.

(** The largest register and the largest shot count that the backend
    accepts. *)
Definition max_qubits (w : World) : Z := 1 + Z.of_N (qubit_room w).
Definition max_shots (w : World) : Z := 1024 + Z.of_N (shot_room w).

(** ** A state and exception monad *)

Definition M (A : Type) : Type := World -> result A * World.

Definition ret {A} (a : A) : M A := fun w => (Ok a, w).

Definition raise {A} (e : Exception) : M A := fun w => (Raise e, w).

Definition bind {A B} (m : M A) (k : A -> M B) : M B :=
  fun w =>
    match m w with
    | (Ok a, w') => k a w'
    | (Raise e, w') => (Raise e, w')
    end.

(** [try: m except Exception as e: h e]. *)
Definition try_except {A} (m : M A) (h : Exception -> M A) : M A :=
  fun w =>
    match m w with
    | (Ok a, w') => (Ok a, w')
    | (Raise e, w') => h e w'
    end.

Definition lift {A} (r : result A) : M A := fun w => (r, w).

#[global] Instance M_ret : MRet M := @ret.
#[global] Instance M_bind : MBind M := fun A B k m => bind m k.

Definition add_log (lvl : Level) (msg : LogMsg) (w : World) : World :=
  {| entropy := entropy w; runs := runs w; circuits := circuits w;
     log := (log w ++ [(lvl, msg)])%list;
     grover_module := grover_module w;
     qubit_room := qubit_room w; shot_room := shot_room w |}.

(** One more circuit object constructed. *)
Definition count_circuit (w : World) : World :=
  {| entropy := entropy w; runs := runs w; circuits := S (circuits w);
     log := log w; grover_module := grover_module w;
     qubit_room := qubit_room w; shot_room := shot_room w |}.

(** One more backend execution: the next one draws the next seed. *)
Definition count_run (w : World) : World :=
  {| entropy := entropy w; runs := S (runs w); circuits := circuits w;
     log := log w; grover_module := grover_module w;
     qubit_room := qubit_room w; shot_room := shot_room w |}.

Definition logging (lvl : Level) (msg : LogMsg) : M unit :=
  fun w => (Ok tt, add_log lvl msg w).

(** The pattern that closes every method of the calculator:
    [except Exception as e: logging.error(f"Error in <name>: {e}"); raise]. *)
Definition logged {A} (name : string) (body : M A) : M A :=
  try_except body (fun e => logging ERROR (MsgErrorIn name e) ;; raise e).

(** ** The circuit builder

    Model of the construction interface of the circuit library
    ([qiskit.QuantumCircuit]), which the repository imports.  A circuit
    is its two register sizes and its instruction list; every builder
    method appends to the list after the library's argument checks.  The
    Python object is mutated in place and has a single owner in every
    method of the calculator, so the updated circuit is passed on. *)

Inductive Instruction : Type :=
  | HGate (qubit : nat)
  | XGate (qubit : nat)
  | RXGate (theta : float) (qubit : nat)
  | RYGate (theta : float) (qubit : nat)
  | RZGate (theta : float) (qubit : nat)
  | CZGate (control target : nat)
  | Measure (qubit clbit : nat)
  | SaveStatevector.

Record QuantumCircuit : Type := mkCircuit {
  qc_num_qubits : nat;
  qc_num_clbits : nat;
  qc_data : list Instruction
}.

(** What the program passes where the builder expects bits: an [int]
    or [range(n)]. *)
Inductive BitSpec : Type :=
  | Index (i : Z)
  | Range (n : Z).

(** [range(n)] as the list of its elements. *)
Definition range (n : Z) : list nat := seq 0 (Z.to_nat n).

(** Bit specifiers index the register like a Python list: an integer
    [i] with [-size <= i < size] names bit [i mod size]; any other
    index is refused. *)
Definition bit_argument_conversion (size : nat) (spec : BitSpec)
  : result (list nat) :=
  match spec with
  | Index i =>
      if (- Z.of_nat size <=? i) && (i <? Z.of_nat size)
      then Ok [Z.to_nat (i mod Z.of_nat size)]
      else Raise (CircuitError "Index out of range.")
  | Range n =>
      if forallb (fun k => (k <? size)%nat) (range n)
      then Ok (range n)
      else Raise (CircuitError "Index out of range.")
  end.

(** [QuantumCircuit(n)] and [QuantumCircuit(n, m)]: register sizes
    must be non-negative. *)
Definition new_QuantumCircuit (nqubits nclbits : Z) : M QuantumCircuit :=
  fun w =>
    if (nqubits <? 0) || (nclbits <? 0)
    then (Raise (CircuitError "Register size must be non-negative"), w)
    else (Ok (mkCircuit (Z.to_nat nqubits) (Z.to_nat nclbits) []),
          count_circuit w).

Definition append (instrs : list Instruction) (c : QuantumCircuit)
  : QuantumCircuit :=
  mkCircuit (qc_num_qubits c) (qc_num_clbits c) (qc_data c ++ instrs).

(** A one-qubit gate broadcasts over its argument: one instruction per
    named qubit, in order; an empty argument is refused. *)
Definition append_gate1 (gate : nat -> Instruction) (spec : BitSpec)
    (c : QuantumCircuit) : result QuantumCircuit :=
  match bit_argument_conversion (qc_num_qubits c) spec with
  | Raise e => Raise e
  | Ok [] => Raise (CircuitError "One or more of the arguments are empty")
  | Ok qubits => Ok (append (map gate qubits) c)
  end.

Definition h := append_gate1 HGate.
Definition x := append_gate1 XGate.
Definition rx (theta : float) := append_gate1 (RXGate theta).
Definition ry (theta : float) := append_gate1 (RYGate theta).
Definition rz (theta : float) := append_gate1 (RZGate theta).

(** [cz(control, target)] on two integer indices: both must name a
    qubit, and not the same one. *)
Definition cz (control target : Z) (c : QuantumCircuit)
  : result QuantumCircuit :=
  match bit_argument_conversion (qc_num_qubits c) (Index control),
        bit_argument_conversion (qc_num_qubits c) (Index target) with
  | Raise e, _ => Raise e
  | _, Raise e => Raise e
  | Ok [ctl], Ok [tgt] =>
      if (ctl =? tgt)%nat
      then Raise (CircuitError "duplicate qubit arguments")
      else Ok (append [CZGate ctl tgt] c)
  | _, _ => Raise (CircuitError "Not sure how to combine these qubit arguments")
  end.

(** [measure(qubits, clbits)]: arguments of equal length are paired
    off; one qubit may be measured into several bits. *)
Definition measure (qspec cspec : BitSpec) (c : QuantumCircuit)
  : result QuantumCircuit :=
  match bit_argument_conversion (qc_num_qubits c) qspec,
        bit_argument_conversion (qc_num_clbits c) cspec with
  | Raise e, _ => Raise e
  | _, Raise e => Raise e
  | Ok qubits, Ok clbits =>
      if (length clbits =? length qubits)%nat
      then Ok (append (zip_with Measure qubits clbits) c)
      else match qubits, clbits with
           | [q], _ :: _ => Ok (append (map (Measure q) clbits) c)
           | _, _ => Raise (CircuitError "register size error")
           end
  end.

Definition save_statevector (c : QuantumCircuit) : result QuantumCircuit :=
  Ok (append [SaveStatevector] c).

Definition is_measure (i : Instruction) : bool :=
  match i with Measure _ _ => true | _ => false end.

Definition is_save (i : Instruction) : bool :=
  match i with SaveStatevector => true | _ => false end.

Definition has_measure (c : QuantumCircuit) : bool :=
  existsb is_measure (qc_data c).

Definition has_save (c : QuantumCircuit) : bool :=
  existsb is_save (qc_data c).

(** The circuit on [n] qubits and [n] classical bits that applies H to
    every qubit, then measures every qubit [q] into bit [q], then saves
    the state. *)
Definition h_measure_circuit (n : nat) : QuantumCircuit :=
  mkCircuit n n (map HGate (seq 0 n)
                 ++ map (fun q => Measure q q) (seq 0 n)
                 ++ [SaveStatevector]).

(** The one-qubit circuit that applies X when [flip] is set, then H,
    then measures the qubit and saves the state. *)
Definition x_h_measure_circuit (flip : bool) : QuantumCircuit :=
  mkCircuit 1 1 ((if flip then [XGate 0] else [])
                 ++ [HGate 0; Measure 0 0; SaveStatevector]).

(** ** Outcome tables *)

(** One more observation of [outcome]. *)
Definition record_outcome (table : Counts) (outcome : string) : Counts :=
  <[outcome := S (default 0%nat (table !! outcome))]> table.

(** Modelled from the spec: the Measurement Sampler's tabulation (4.3:
    it "draws shots independent samples ... and tabulates outcome
    counts"), which the program obtains from the simulator backend. *)
Definition tabulate (outcomes : list string) : Counts :=
  fold_left record_outcome outcomes ∅.

(** [sum(counts.values())]. *)
Definition sum_values (counts : Counts) : nat :=
  map_fold (fun _ count acc => (acc + count)%nat) 0%nat counts.

(** ['1' in outcome], for a one-character needle. *)
Fixpoint contains (c : ascii) (s : string) : bool :=
  match s with
  | EmptyString => false
  | String a rest => if Ascii.eqb a c then true else contains c rest
  end.

(** The entries of a table whose outcome contains at least one ['1']
    bit: the declarative side of the error count. *)
Definition with_a_one (counts : Counts) : Counts :=
  filter (fun entry => contains "1" entry.1 = true) counts.

(** [counts.get(key, 0)]. *)
Definition get (counts : Counts) (key : string) : nat :=
  default 0%nat (counts !! key).

(** ** Python's true division

    [a / b] on two integers is the binary64 that is nearest to the
    quotient, ties going to the even mantissa.  A float is kept here as
    the rational that it is. *)

(** [n / d] rounded to the nearest integer, a tie to the even one
    ([d > 0]). *)
Definition round_half_even (n d : Z) : Z :=
  let q := n / d in
  let r := n mod d in
  if 2 * r <? d then q
  else if d <? 2 * r then q + 1
  else if Z.even q then q else q + 1.

Definition is_power_of_two (d : Z) : bool := d =? 2 ^ Z.log2 d.

(** The binary64 nearest to [n / d], for [n > 0] and [d > 0], with no
    bound on the exponent from above: [e] is the exponent of the
    quotient, [2^e <= n/d < 2^(e+1)], and the quotient is rounded to a
    multiple of [2^(e-52)] (53 bits of mantissa), or of [2^(-1074)]
    where it is too small for that (the subnormal range). *)
Definition nearest_binary64 (n d : Z) : Q :=
  let e := Z.log2 n - Z.log2 d
           - (if n * 2 ^ Z.log2 d <? d * 2 ^ Z.log2 n then 1 else 0) in
  let s := Z.min 1074 (52 - e) in
  if 0 <=? s
  then Qmake (round_half_even (n * 2 ^ s) d) (Z.to_pos (2 ^ s))
  else inject_Z (round_half_even n (d * 2 ^ (- s)) * 2 ^ (- s)).

(** A quotient that is a binary64 as it is written: zero, or a
    numerator of at most 53 bits over a power of two that is not
    beyond the subnormal range. *)
Definition is_binary64_quotient (a b : Z) : bool :=
  (a =? 0)
  || ((Z.abs a <? 2 ^ 53) && is_power_of_two (Z.abs b)
      && (Z.abs b <=? 2 ^ 1074)).

(** [a / b]: the quotient itself where it is a binary64 as written
    (rounding changes nothing there), and otherwise the nearest
    binary64; a result that rounds beyond the largest float raises
    [OverflowError]. *)
Definition true_div (a b : Z) : result Q :=
  if b =? 0 then Raise ZeroDivisionError
  else if is_binary64_quotient a b then Ok (inject_Z a / inject_Z b)%Q
  else
    let f := nearest_binary64 (Z.abs a) (Z.abs b) in
    if Qle_bool (inject_Z (2 ^ 1024)) f
    then Raise (OverflowError "integer division result too large for a float")
    else Ok (if Z.sgn a * Z.sgn b <? 0 then (- f)%Q else f).

(** ** The simulator backend *)

(** What a finished job holds: the saved state (when the circuit has a
    [save_statevector]) and the table of sampled outcomes (when the
    circuit measures). *)
Record Result (Statevector : Type) : Type := mkResult {
  res_statevector : option Statevector;
  res_counts : option Counts
}.
Arguments mkResult {Statevector} _ _.
Arguments res_statevector {Statevector} _.
Arguments res_counts {Statevector} _.

(** What [result.get_counts(circuit)] answers with: the table of the
    sampled outcomes where the experiment holds one; otherwise, where
    the experiment holds a saved state, the probabilities of the basis
    states of that state (a dictionary of floats, computed from the
    state: nothing is sampled). *)
Inductive Outcomes (Statevector : Type) : Type :=
  | SampledCounts (counts : Counts)
  | StateProbabilities (state : Statevector).
Arguments SampledCounts {Statevector} counts.
Arguments StateProbabilities {Statevector} state.

(** [result.get_counts(circuit)] on any result.  It fails where the
    experiment holds neither counts nor a state. *)
Definition get_counts_or_probabilities {SV} (r : Result SV)
  : result (Outcomes SV) :=
  match res_counts r, res_statevector r with
  | Some counts, _ => Ok (SampledCounts counts)
  | None, Some state => Ok (StateProbabilities state)
  | None, None => Raise (QiskitError "No counts for experiment")
  end.

(** [result.get_counts(circuit)] as the calculator calls it, on the
    result of a circuit that measures: the table of sampled counts.
    Such a result holds counts or nothing at all, and on both this is
    [get_counts_or_probabilities] (lemma [get_counts_of_measuring_run]
    below). *)
Definition get_counts {SV} (r : Result SV) : result Counts :=
  match res_counts r with
  | Some counts => Ok counts
  | None => Raise (QiskitError "No counts for experiment")
  end.

(** [result.get_statevector(circuit)]. *)
Definition get_statevector {SV} (r : Result SV) : result SV :=
  match res_statevector r with
  | Some v => Ok v
  | None => Raise (QiskitError "No statevector for experiment")
  end.

(** [str.upper()].  Python strings are modelled with one [ascii] per
    character, which covers ASCII text: the letters [a]..[z] are
    raised, every other character is kept.  (No character outside
    ASCII has an upper case among the letters of the gate names, so
    the comparisons below come out the same for other text.) *)
Definition upper_ascii (a : ascii) : ascii :=
  let n := nat_of_ascii a in
  if ((97 <=? n) && (n <=? 122))%nat then ascii_of_nat (n - 32) else a.

Fixpoint upper (s : string) : string :=
  match s with
  | EmptyString => EmptyString
  | String a rest => String (upper_ascii a) (upper rest)
  end.

(** The gate names of the interface, as written there. *)
Definition gate_kinds : list string := ["H"; "X"; "RX"; "RY"; "RZ"].

(** [len(s)], the number of characters. *)
Definition len (s : string) : Z := Z.of_nat (String.length s).

(** The two exceptions that [grovers_speed_between_qubits] raises
    itself. *)
Definition length_mismatch : Exception :=
  ValueError "Target state length must match the number of qubits.".

Definition module_not_found : Exception :=
  ImportError
    "Grover's algorithm module not found. Please update Qiskit using 'pip install --upgrade qiskit'.".

(** ** The simulator backend's [run] *)

Module AerSimulator.

Section Engine.

(** The two operations of the simulation that stay abstract:
    - [final_state c] is the state that the instructions of [c] reach
      from the all-zero register;
    - [shot seed c k] is the bitstring that the [k]-th shot of an
      execution of [c] seeded with [seed] measures. *)
Context {Statevector : Type}.
Variable final_state : QuantumCircuit -> Statevector.
Variable shot : Seed -> QuantumCircuit -> nat -> string.

(** Modelled from the spec: the Measurement Sampler's [sample] (4.3),
    which the program obtains from the backend: the table of the
    [shots] outcomes drawn for [circuit] under the seed of the next
    execution in [w]. *)
Definition sampled (w : World) (circuit : QuantumCircuit) (shots : Z)
  : Counts :=
  tabulate (map (shot (entropy w (runs w)) circuit) (seq 0 (Z.to_nat shots))).

(** The same table, with the seed of the execution named. *)
Definition sampled_under (seed : Seed) (circuit : QuantumCircuit)
    (shots : Z) : Counts :=
  tabulate (map (shot seed circuit) (seq 0 (Z.to_nat shots))).

(** The two refusals of the backend. *)
Definition insufficient_memory : Exception :=
  AerError "Insufficient memory to run circuit using the statevector simulator.".

Definition too_many_shots : Exception :=
  AerError "Number of shots exceeds the maximum of the backend.".

(** [self.backend.run(circuit, shots=shots).result()], an operation of
    the simulator library.
    - A circuit on more qubits than the backend simulates, or a shot
      count above the one it accepts, is refused: nothing is executed.
      (Modelled from the spec: the engine rejects a register above its
      configured maximum, which memory bounds, sections 4.1 and 5.)
    - With a shot count that is not positive the backend executes,
      and the experiment fails: its result holds neither a state nor
      counts, and [get_counts] raises on it.
    - Otherwise the state is captured where the circuit has a
      [save_statevector], and outcomes are sampled when the circuit
      measures into classical bits, and only then: what the library
      tabulates is what [measure] has written. *)
Definition run (circuit : QuantumCircuit) (shots : Z)
  : M (Result Statevector) :=
  fun w =>
    if max_qubits w <? Z.of_nat (qc_num_qubits circuit)
    then (Raise insufficient_memory, w)
    else if max_shots w <? shots then (Raise too_many_shots, w)
    else if shots <=? 0 then (Ok (mkResult None None), count_run w)
    else
      (Ok (mkResult
             (if has_save circuit then Some (final_state circuit) else None)
             (if has_measure circuit
              then Some (sampled w circuit shots)
              else None)),
       count_run w).

End Engine.

End AerSimulator.

(** ** QuantumCalculator *)

Module QuantumCalculator.

Section Backend.

(** The backend, [self.backend = AerSimulator(method='statevector')],
    given by its two abstract operations. *)
Context {Statevector : Type}.
Variable final_state : QuantumCircuit -> Statevector.
Variable shot : Seed -> QuantumCircuit -> nat -> string.

Definition backend_run := AerSimulator.run final_state shot.

(** [Grover(oracle=oracle).run(backend).optimal_num_iterations], an
    action of the algorithms library. *)
Variable grover_library : QuantumCircuit -> M Z.

(** The circuit of [observe_qubits]: lines 41-44. *)
Definition observe_circuit (num_qubits : Z) : M QuantumCircuit :=
  circuit ← new_QuantumCircuit num_qubits num_qubits;
  circuit ← lift (h (Range num_qubits) circuit);
  circuit ← lift (measure (Range num_qubits) (Range num_qubits) circuit);
  lift (save_statevector circuit).

Definition observe_qubits (num_qubits shots : Z) : M Counts :=
  logged "observe_qubits"
    (circuit ← observe_circuit num_qubits;
     result ← backend_run circuit shots;
     counts ← lift (get_counts result);
     logging INFO (MsgObserved counts);;
     mret counts).

(** The loop of lines 58-61. *)
Definition count_errors (counts : Counts) : nat :=
  map_fold (fun outcome count errors =>
              if contains "1" outcome then (errors + count)%nat else errors)
           0%nat counts.

Definition calculate_error_rates (num_qubits shots : Z) : M Q :=
  logged "calculate_error_rates"
    (counts ← observe_qubits num_qubits shots;
     let total := sum_values counts in
     let errors := count_errors counts in
     error_rate ← lift (true_div (Z.of_nat errors) (Z.of_nat total));
     logging INFO (MsgErrorRate error_rate);;
     mret error_rate).

(** The [if]/[elif] chain of lines 72-83. *)
Definition apply_named_gate (gate_type : string) (angle : float)
    (qubit : Z) (circuit : QuantumCircuit) : result QuantumCircuit :=
  if String.eqb (upper gate_type) "RX" then rx angle (Index qubit) circuit
  else if String.eqb (upper gate_type) "RY" then ry angle (Index qubit) circuit
  else if String.eqb (upper gate_type) "RZ" then rz angle (Index qubit) circuit
  else if String.eqb (upper gate_type) "H" then h (Index qubit) circuit
  else if String.eqb (upper gate_type) "X" then x (Index qubit) circuit
  else Raise (ValueError "Unsupported gate type.").

Definition calculate_gate_variables (gate_type : string) (angle : float)
    (qubit : Z) : M QuantumCircuit :=
  logged "calculate_gate_variables"
    (circuit ← new_QuantumCircuit (qubit + 1) 0;
     circuit ← lift (apply_named_gate gate_type angle qubit circuit);
     circuit ← lift (save_statevector circuit);
     logging INFO (MsgAppliedGate gate_type angle qubit);;
     mret circuit).

(** [qubit_state == '1'] on an [Optional[str]]. *)
Definition is_one (qubit_state : option string) : bool :=
  match qubit_state with
  | Some s => String.eqb s "1"
  | None => false
  end.

(** The circuit of [calculate_spin]: lines 93-98. *)
Definition spin_circuit (qubit_state : option string) : M QuantumCircuit :=
  circuit ← new_QuantumCircuit 1 1;
  circuit ← (if is_one qubit_state then lift (x (Index 0) circuit)
             else mret circuit);
  circuit ← lift (h (Index 0) circuit);
  circuit ← lift (measure (Index 0) (Index 0) circuit);
  lift (save_statevector circuit).

Definition calculate_spin (qubit_state : option string) : M Q :=
  logged "calculate_spin"
    (circuit ← spin_circuit qubit_state;
     result ← backend_run circuit 1024;
     counts ← lift (get_counts result);
     let ones := get counts "1" in
     spin ← lift (true_div (Z.of_nat ones) 1024);
     logging INFO (MsgSpin spin);;
     mret spin).

(** [from qiskit.algorithms import Grover]. *)
Definition import_Grover : M unit :=
  fun w =>
    if grover_module w then (Ok tt, w)
    else (Raise (ImportError "No module named 'qiskit.algorithms'"), w).

(** [for idx, bit in enumerate(target_state): if bit == '0':
    oracle.x(idx)], from position [idx] on. *)
Fixpoint flip_zero_bits (idx : Z) (bits : string) (oracle : QuantumCircuit)
  : result QuantumCircuit :=
  match bits with
  | EmptyString => Ok oracle
  | String bit rest =>
      match (if Ascii.eqb bit "0" then x (Index idx) oracle
             else Ok oracle) with
      | Ok oracle' => flip_zero_bits (idx + 1) rest oracle'
      | Raise e => Raise e
      end
  end.

(** Lines 112-133, inside the [try]. *)
Definition grovers_body (target_state : string) (num_qubits : Z) : M Z :=
  import_Grover;;
  (if negb (len target_state =? num_qubits)
   then raise (ValueError
                 "Target state length must match the number of qubits.")
   else mret tt);;
  oracle ← new_QuantumCircuit num_qubits 0;
  oracle ← lift (flip_zero_bits 0 target_state oracle);
  oracle ← lift (cz (num_qubits - 1) (num_qubits - 2) oracle);
  oracle ← lift (flip_zero_bits 0 target_state oracle);
  oracle ← lift (save_statevector oracle);
  iterations ← grover_library oracle;
  let speed := iterations in
  logging INFO (MsgGroverIterations iterations);;
  mret speed.

(** The two handlers of lines 134-139: an [ImportError] is logged and
    replaced by one with the update hint; any other exception is
    logged and raised again. *)
Definition grovers_speed_between_qubits (target_state : string)
    (num_qubits : Z) : M Z :=
  try_except (grovers_body target_state num_qubits)
    (fun e =>
       match e with
       | ImportError _ =>
           logging ERROR MsgGroverModuleNotFound;;
           raise (ImportError
                    "Grover's algorithm module not found. Please update Qiskit using 'pip install --upgrade qiskit'.")
       | _ =>
           logging ERROR (MsgErrorIn "grovers_speed_between_qubits" e);;
           raise e
       end).

End Backend.

End QuantumCalculator.

(** ** The handlers of QuantumVerseCalculatorGUI

    Each handler reads its entries, guards them, calls the calculator
    and either displays the result or opens a message box.  The widget
    updates and the on-screen log queue are presentation and are left
    out; what the handlers write with [logging.error] is kept. *)

Module QuantumVerseCalculatorGUI.

Inductive Dialog : Type :=
  | InvalidInput (text : string)
  | ImportErrorBox (msg : string)
  | ErrorBox (e : Exception).

Inductive Shown (A : Type) : Type :=
  | Displayed (a : A)
  | MessageBox (d : Dialog).
Arguments Displayed {A} a.
Arguments MessageBox {A} d.

(** [int(entry.get())]: an entry is given by the integer that [int]
    reads from its text, [None] when [int] raises [ValueError]. *)
Definition int (entry : option Z) : result Z :=
  match entry with
  | Some n => Ok n
  | None => Raise (ValueError "invalid literal for int()")
  end.

(** [float(entry.get())], likewise. *)
Definition to_float (entry : option float) : result float :=
  match entry with
  | Some a => Ok a
  | None => Raise (ValueError "could not convert string to float")
  end.

(** The [except] clauses of a handler, in their order.  [invalid] is
    the text of the handler's [except ValueError] clause, [None] for
    a handler without one. *)
Definition handle {A} (invalid : option string) (name : string)
    (body : M A) : World -> Shown A * World :=
  fun w =>
    match body w with
    | (Ok a, w') => (Displayed a, w')
    | (Raise e, w') =>
        match e, invalid with
        | ValueError _, Some text => (MessageBox (InvalidInput text), w')
        | ImportError msg, _ =>
            (MessageBox (ImportErrorBox msg), add_log ERROR (MsgText msg) w')
        | _, _ =>
            (MessageBox (ErrorBox e), add_log ERROR (MsgErrorIn name e) w')
        end
    end.

(** [all(bit in '01' for bit in target_state)]. *)
Fixpoint all_binary (s : string) : bool :=
  match s with
  | EmptyString => true
  | String bit rest => contains bit "01" && all_binary rest
  end.

Section Handlers.

Context {Statevector : Type}.
Variable final_state : QuantumCircuit -> Statevector.
Variable shot : Seed -> QuantumCircuit -> nat -> string.
Variable grover_library : QuantumCircuit -> M Z.

Definition positive_integers : string :=
  "Please enter positive integers for qubits and shots.".

Definition observe_qubits (observe_qubits_entry observe_shots_entry
    : option Z) : World -> Shown Counts * World :=
  handle (Some positive_integers) "observe_qubits"
    (num_qubits ← lift (int observe_qubits_entry);
     shots ← lift (int observe_shots_entry);
     (if (num_qubits <=? 0) || (shots <=? 0)
      then raise (ValueError EmptyString) else mret tt);;
     QuantumCalculator.observe_qubits final_state shot num_qubits shots).

Definition calculate_error_rate (error_qubits_entry error_shots_entry
    : option Z) : World -> Shown Q * World :=
  handle (Some positive_integers) "calculate_error_rates"
    (num_qubits ← lift (int error_qubits_entry);
     shots ← lift (int error_shots_entry);
     (if (num_qubits <=? 0) || (shots <=? 0)
      then raise (ValueError EmptyString) else mret tt);;
     QuantumCalculator.calculate_error_rates final_state shot num_qubits shots).

Definition apply_gate (gate_type : string) (gate_angle_entry : option float)
    (gate_qubit_entry : option Z)
  : World -> Shown (Statevector * Outcomes Statevector) * World :=
  handle (Some "Please enter a valid qubit index and angle.") "apply_gate"
    (angle ← lift (to_float gate_angle_entry);
     qubit ← lift (int gate_qubit_entry);
     (if qubit <? 0 then raise (ValueError EmptyString) else mret tt);;
     circuit ← QuantumCalculator.calculate_gate_variables gate_type angle qubit;
     result ← QuantumCalculator.backend_run final_state shot circuit 1024;
     statevector ← lift (get_statevector result);
     counts ← lift (get_counts_or_probabilities result);
     mret (statevector, counts)).

Definition calculate_spin (qubit_state : string)
  : World -> Shown Q * World :=
  handle None "calculate_spin"
    (QuantumCalculator.calculate_spin final_state shot (Some qubit_state)).

(** [target_state] is the entry's text after [.strip()]. *)
Definition run_grovers (target_state : string)
    (grover_qubits_entry : option Z) : World -> Shown Z * World :=
  handle (Some "Please enter a valid binary target state and positive number of qubits.")
    "grovers_speed_between_qubits"
    (num_qubits ← lift (int grover_qubits_entry);
     (if (num_qubits <=? 0) || negb (all_binary target_state)
      then raise (ValueError EmptyString) else mret tt);;
     QuantumCalculator.grovers_speed_between_qubits grover_library target_state num_qubits).

End Handlers.

End QuantumVerseCalculatorGUI.


(** ** A reference backend

    A small simulator on which the definitions can be run.  It follows
    registers whose qubits are each in a basis state or an equal
    superposition, which covers the circuits of H and X that the
    calculator measures; a qubit that another gate touches is marked
    [Unknown] and measured like a fair coin. *)

Module Reference.

Inductive QState : Type := Zero | One | Plus | Minus | Unknown.

Definition apply_h (s : QState) : QState :=
  match s with
  | Zero => Plus | One => Minus | Plus => Zero | Minus => One
  | Unknown => Unknown
  end.

Definition apply_x (s : QState) : QState :=
  match s with
  | Zero => One | One => Zero | other => other
  end.

Definition step_state (i : Instruction) (st : list QState) : list QState :=
  match i with
  | HGate q => alter apply_h q st
  | XGate q => alter apply_x q st
  | RXGate _ q | RYGate _ q | RZGate _ q => <[q := Unknown]> st
  | CZGate c t => <[c := Unknown]> (<[t := Unknown]> st)
  | Measure _ _ | SaveStatevector => st
  end.

Definition final_state (c : QuantumCircuit) : list QState :=
  fold_left (fun st i => step_state i st) (qc_data c)
            (replicate (qc_num_qubits c) Zero).

(** A linear congruential generator supplies the coins. *)
Definition lcg (s : Z) : Z :=
  (6364136223846793005 * s + 1442695040888963407) mod 2 ^ 64.

Definition coin (seed : Seed) (k q : nat) : bool :=
  Z.testbit (lcg (lcg (seed + 1000003 * Z.of_nat k + Z.of_nat q))) 40.

Definition measure_bit (seed : Seed) (k q : nat) (s : QState) : bool :=
  match s with
  | Zero => false
  | One => true
  | _ => coin seed k q
  end.

Definition step_shot (seed : Seed) (k : nat)
    (acc : list QState * list bool) (i : Instruction)
  : list QState * list bool :=
  let '(st, bits) := acc in
  match i with
  | Measure q c =>
      let b := measure_bit seed k q (default Zero (st !! q)) in
      (<[q := if b then One else Zero]> st, <[c := b]> bits)
  | _ => (step_state i st, bits)
  end.

Fixpoint render (bits : list bool) : string :=
  match bits with
  | [] => EmptyString
  | b :: rest => String (if b then "1" else "0")%char (render rest)
  end.

(** The outcome of shot [k]: the classical register, highest bit
    first. *)
Definition shot (seed : Seed) (c : QuantumCircuit) (k : nat) : string :=
  render (reverse (snd (fold_left (step_shot seed k) (qc_data c)
                          (replicate (qc_num_qubits c) Zero,
                           replicate (qc_num_clbits c) false)))).

(** Modelled from the spec: the Grover iteration estimate of 4.4,
    round(pi/4 * sqrt(2^n)), with pi cut after fifteen decimals; [n] is
    the oracle's number of qubits. *)
Definition iteration_estimate (n : Z) : Z :=
  let pi15 := 3141592653589793 in
  (Z.sqrt (pi15 * pi15 * 2 ^ n / (4 * 10 ^ 30)) + 1) / 2.

Definition grover_library (oracle : QuantumCircuit) : M Z :=
  fun w =>
    (Ok (iteration_estimate (Z.of_nat (qc_num_qubits oracle))), count_run w).

(** A fresh process: nothing run, nothing logged.  Its backend
    simulates registers of up to 24 qubits and executions of up to
    1000000 shots. *)
Definition world (seeds : nat -> Seed) (has_grover : bool) : World :=
  mkWorld seeds 0 0 [] has_grover 23 998976.

(** A fresh process whose backend draws the seeds 2024, 2025, ... and
    in which the Grover module imports. *)
Definition fresh : World := world (fun k => 2024 + Z.of_nat k) true.

(** A fresh process whose backend draws the same seed every time. *)
Definition seeded (seed : Seed) : World := world (fun _ => seed) true.

End Reference.


(** ** Declarative counterparts used in the statements *)

(** The entries of a table whose outcome contains no ['1']. *)
Definition without_a_one (counts : Counts) : Counts :=
  filter (fun entry => contains "1" entry.1 = false) counts.

(** ['0' * n]. *)
Fixpoint zeros (n : nat) : string :=
  match n with
  | O => EmptyString
  | S m => String "0" (zeros m)
  end.

(** A string of [n] characters, each ['0'] or ['1']. *)
Definition is_bitstring (n : nat) (s : string) : Prop :=
  String.length s = n /\ QuantumVerseCalculatorGUI.all_binary s = true.

(** The instruction that a gate name in upper case stands for. *)
Definition named_gate (kind : string) (angle : float) (qubit : nat)
  : option Instruction :=
  if String.eqb kind "RX" then Some (RXGate angle qubit)
  else if String.eqb kind "RY" then Some (RYGate angle qubit)
  else if String.eqb kind "RZ" then Some (RZGate angle qubit)
  else if String.eqb kind "H" then Some (HGate qubit)
  else if String.eqb kind "X" then Some (XGate qubit)
  else None.

(** The positions, counted from [idx], at which [bits] has a ['0']. *)
Fixpoint zero_positions (idx : nat) (bits : string) : list nat :=
  match bits with
  | EmptyString => []
  | String bit rest =>
      if Ascii.eqb bit "0" then idx :: zero_positions (S idx) rest
      else zero_positions (S idx) rest
  end.

(** The oracle for a target of two or more characters: X on every
    position where the target has a ['0'], one CZ on the last two
    qubits, the same X gates again, and the state capture. *)
Definition grover_oracle (target_state : string) : QuantumCircuit :=
  let n := String.length target_state in
  let flips := map XGate (zero_positions 0 target_state) in
  mkCircuit n 0
    (flips ++ [CZGate (n - 1) (n - 2)] ++ flips ++ [SaveStatevector]).

(** What the guards of the handlers let through: two entries that read
    as positive integers (lines 437-440 and 458-461); an angle that
    reads as a float and a qubit index that reads as an integer and is
    not negative (lines 477-480); a qubit count that reads as a positive
    integer next to a target of ['0'] and ['1'] only (lines 518-520). *)
Definition positive_sizes (qubits_entry shots_entry : option Z) : bool :=
  match qubits_entry, shots_entry with
  | Some num_qubits, Some shots => (0 <? num_qubits) && (0 <? shots)
  | _, _ => false
  end.

Definition gate_entries_pass (angle_entry : option float)
    (qubit_entry : option Z) : bool :=
  match angle_entry, qubit_entry with
  | Some _, Some qubit => 0 <=? qubit
  | _, _ => false
  end.

Definition grover_entries_pass (target_state : string)
    (qubits_entry : option Z) : bool :=
  match qubits_entry with
  | Some num_qubits =>
      (0 <? num_qubits) && QuantumVerseCalculatorGUI.all_binary target_state
  | None => false
  end.

(** ** The on-screen log: log and process_log_queue

    [self.log_queue] is a FIFO queue, the text widget [self.log_text]
    is given by its content.  The timer that calls
    [process_log_queue] again is left out. *)

Module LogPane.

Record Pane : Type := mkPane {
  log_queue : list string;
  log_text : string
}.

Definition newline : string := String "010" EmptyString.

(** [self.log_queue.put(message)]. *)
Definition log (message : string) (pane : Pane) : Pane :=
  mkPane (log_queue pane ++ [message]) (log_text pane).

(** The loop of lines 538-543: while the queue is not empty, take its
    first message and insert it, with a newline, at the end of the
    text. *)
Fixpoint drain (queue : list string) (text : string) : string :=
  match queue with
  | [] => text
  | message :: rest => drain rest (text ++ message ++ newline)
  end.

Definition process_log_queue (pane : Pane) : Pane :=
  mkPane [] (drain (log_queue pane) (log_text pane)).

(** The messages, one per line. *)
Fixpoint lines (messages : list string) : string :=
  match messages with
  | [] => EmptyString
  | message :: rest => message ++ newline ++ lines rest
  end.

End LogPane.

(** ** The look of the window: create_widgets, main and change_theme

    The style database of [ttk.Style] is a map from a style name and
    an option to a value; [configure] and [map] set the options they
    are given and leave every other one as it is.  Of the widgets only
    the options that [change_theme] touches are followed: the
    background of the window and the colours of the log text. *)

Module Look.

Inductive Value : Type :=
  | Text (s : string)
  | Num (n : Z)
  | Font (family : string) (size : Z) (weight : option string)
  | States (l : list (string * string)).

Record Window : Type := mkWindow {
  master_bg : string;
  log_text_bg : string;
  log_text_fg : string;
  style : gmap (string * string) Value
}.

Definition set_options (name : string) (options : list (string * Value))
    (db : gmap (string * string) Value) : gmap (string * string) Value :=
  fold_left (fun db option => <[(name, option.1) := option.2]> db) options db.

(** [style.configure(name, **options)]. *)
Definition configure (name : string) (options : list (string * Value))
    (win : Window) : Window :=
  mkWindow (master_bg win) (log_text_bg win) (log_text_fg win)
           (set_options name options (style win)).

(** [style.map(name, **options)]: the state maps are kept in the same
    database, under the option's name prefixed with ["map."]. *)
Definition map_ (name : string)
    (options : list (string * list (string * string))) (win : Window)
  : Window :=
  configure name
    (map (fun option => ("map." ++ option.1, States option.2)) options) win.

(** [self.master.configure(bg=colour)]. *)
Definition master_configure (bg : string) (win : Window) : Window :=
  mkWindow bg (log_text_bg win) (log_text_fg win) (style win).

(** [self.log_text.config(bg=..., fg=...)]. *)
Definition log_text_config (bg fg : string) (win : Window) : Window :=
  mkWindow (master_bg win) bg fg (style win).

(** The keys that [configure name options] sets. *)
Definition keys_of (name : string) (options : list (string * Value))
  : list (string * string) :=
  map (fun option => (name, option.1)) options.

(** [f] sets the options [keys], to values of its own, and leaves every
    other option of the database as it is. *)
Definition overwrites (keys : list (string * string))
    (f : gmap (string * string) Value -> gmap (string * string) Value)
  : Prop :=
  forall key,
    (key ∈ keys -> forall db1 db2, f db1 !! key = f db2 !! key)
    /\ (key ∉ keys -> forall db, f db !! key = db !! key).

Definition helvetica : Value := Font "Helvetica" 10 None.
Definition helvetica_bold : Value := Font "Helvetica" 10 (Some "bold").

(** Lines 155-188 and 230 of [create_widgets]. *)
Definition create_widgets (win : Window) : Window :=
  let win := configure "." [("font", helvetica)] win in
  let win := configure "TButton"
               [("padding", Num 6); ("relief", Text "flat");
                ("background", Text "#4A90E2"); ("foreground", Text "black");
                ("font", helvetica_bold)] win in
  let win := map_ "TButton" [("background", [("active", "#357ABD")])] win in
  let win := configure "TLabel"
               [("background", Text "#2C3E50"); ("foreground", Text "black");
                ("font", helvetica)] win in
  let win := configure "TFrame" [("background", Text "#2C3E50")] win in
  let win := configure "TEntry"
               [("fieldbackground", Text "#34495E");
                ("foreground", Text "black"); ("font", helvetica)] win in
  let win := configure "TCombobox"
               [("fieldbackground", Text "#34495E");
                ("foreground", Text "black"); ("font", helvetica)] win in
  let win := configure "TNotebook" [("background", Text "#2C3E50")] win in
  let win := configure "TNotebook.Tab"
               [("background", Text "#4A90E2"); ("foreground", Text "black");
                ("font", helvetica_bold)] win in
  let win := map_ "TNotebook.Tab"
               [("background", [("selected", "#357ABD")]);
                ("foreground", [("selected", "black")])] win in
  log_text_config "#34495E" "black" win.

(** The window as [main] and the constructor leave it (line 554, then
    [create_widgets]), over the style database [base] of the toolkit. *)
Definition startup (base : gmap (string * string) Value) : Window :=
  create_widgets
    (master_configure "#2C3E50"
       (mkWindow EmptyString EmptyString EmptyString base)).

(** Lines 369-428: the branch for ["Light"], and the branch for every
    other value of the combobox. *)
Definition change_theme (theme : string) (win : Window) : Window :=
  if String.eqb theme "Light" then
    let win := master_configure "#ECF0F1" win in
    let win := configure "TButton"
                 [("background", Text "#4A90E2"); ("foreground", Text "black");
                  ("font", helvetica_bold)] win in
    let win := map_ "TButton" [("background", [("active", "#357ABD")])] win in
    let win := configure "TLabel"
                 [("background", Text "#ECF0F1"); ("foreground", Text "black");
                  ("font", helvetica)] win in
    let win := configure "TFrame" [("background", Text "#ECF0F1")] win in
    let win := configure "TEntry"
                 [("fieldbackground", Text "#ffffff");
                  ("foreground", Text "black"); ("font", helvetica)] win in
    let win := configure "TCombobox"
                 [("fieldbackground", Text "#ffffff");
                  ("foreground", Text "black"); ("font", helvetica)] win in
    let win := configure "TNotebook" [("background", Text "#ECF0F1")] win in
    let win := configure "TNotebook.Tab"
                 [("background", Text "#4A90E2"); ("foreground", Text "black");
                  ("font", helvetica_bold)] win in
    let win := map_ "TNotebook.Tab"
                 [("background", [("selected", "#357ABD")]);
                  ("foreground", [("selected", "black")])] win in
    log_text_config "#ffffff" "black" win
  else
    let win := master_configure "#2C3E50" win in
    let win := configure "TButton"
                 [("background", Text "#4A90E2"); ("foreground", Text "black");
                  ("font", helvetica_bold)] win in
    let win := map_ "TButton" [("background", [("active", "#357ABD")])] win in
    let win := configure "TLabel"
                 [("background", Text "#2C3E50"); ("foreground", Text "black");
                  ("font", helvetica)] win in
    let win := configure "TFrame" [("background", Text "#2C3E50")] win in
    let win := configure "TEntry"
                 [("fieldbackground", Text "#34495E");
                  ("foreground", Text "black"); ("font", helvetica)] win in
    let win := configure "TCombobox"
                 [("fieldbackground", Text "#34495E");
                  ("foreground", Text "black"); ("font", helvetica)] win in
    let win := configure "TNotebook" [("background", Text "#2C3E50")] win in
    let win := configure "TNotebook.Tab"
                 [("background", Text "#4A90E2"); ("foreground", Text "black");
                  ("font", helvetica_bold)] win in
    let win := map_ "TNotebook.Tab"
                 [("background", [("selected", "#357ABD")]);
                  ("foreground", [("selected", "black")])] win in
    log_text_config "#34495E" "black" win.

(** The options that either branch of [change_theme] sets. *)
Definition themed_options : list (string * string) :=
  [("TButton", "background"); ("TButton", "foreground"); ("TButton", "font");
   ("TButton", "map.background");
   ("TLabel", "background"); ("TLabel", "foreground"); ("TLabel", "font");
   ("TFrame", "background");
   ("TEntry", "fieldbackground"); ("TEntry", "foreground"); ("TEntry", "font");
   ("TCombobox", "fieldbackground"); ("TCombobox", "foreground");
   ("TCombobox", "font");
   ("TNotebook", "background");
   ("TNotebook.Tab", "background"); ("TNotebook.Tab", "foreground");
   ("TNotebook.Tab", "font");
   ("TNotebook.Tab", "map.background"); ("TNotebook.Tab", "map.foreground")].

(** What [change_theme] does to the style database alone. *)
Definition restyle (theme : string) (db : gmap (string * string) Value)
  : gmap (string * string) Value :=
  style (change_theme theme (mkWindow EmptyString EmptyString EmptyString db)).

End Look.

(** * Properties *)

(** ** Outcome tables: sums and tabulation *)

Section Tables.

Implicit Types (counts table : Counts) (outcome : string).

Lemma sum_values_empty : sum_values ∅ = 0%nat.
Proof. unfold sum_values. apply map_fold_empty. Qed.

Lemma sum_values_insert table outcome (n : nat) :
  table !! outcome = None ->
  sum_values (<[outcome := n]> table) = (sum_values table + n)%nat.
Proof.
  intros Hfresh. unfold sum_values.
  rewrite map_fold_insert_L; [reflexivity | | assumption].
  intros; lia.
Qed.

Lemma sum_values_delete table outcome (n : nat) :
  table !! outcome = Some n ->
  sum_values table = (sum_values (delete outcome table) + n)%nat.
Proof.
  intros Hin. unfold sum_values.
  rewrite (map_fold_delete_L _ _ outcome n table); [reflexivity | | assumption].
  intros; lia.
Qed.

(** Recording one outcome adds one to the total. *)
Lemma sum_values_record table outcome :
  sum_values (record_outcome table outcome) = S (sum_values table).
Proof.
  unfold record_outcome.
  destruct (table !! outcome) as [n|] eqn:Hlook; simpl.
  - rewrite <- insert_delete_eq.
    rewrite sum_values_insert by apply lookup_delete_eq.
    rewrite (sum_values_delete table outcome n Hlook). lia.
  - rewrite sum_values_insert by assumption. lia.
Qed.

Lemma sum_values_fold outcomes : forall table,
  sum_values (fold_left record_outcome outcomes table)
  = (sum_values table + length outcomes)%nat.
Proof.
  induction outcomes as [|o rest IH]; intros table; simpl.
  - lia.
  - rewrite IH, sum_values_record. lia.
Qed.

(** A table tabulated from [n] outcomes sums to [n]. *)
Lemma sum_values_tabulate outcomes :
  sum_values (tabulate outcomes) = length outcomes.
Proof.
  unfold tabulate. rewrite sum_values_fold, sum_values_empty. lia.
Qed.

(** No entry exceeds the total. *)
Lemma get_le_sum_values counts outcome :
  (get counts outcome <= sum_values counts)%nat.
Proof.
  unfold get. destruct (counts !! outcome) as [n|] eqn:Hlook; simpl.
  - rewrite (sum_values_delete counts outcome n Hlook). lia.
  - lia.
Qed.

Lemma count_errors_insert table outcome (n : nat) :
  table !! outcome = None ->
  QuantumCalculator.count_errors (<[outcome := n]> table)
  = if contains "1" outcome
    then (QuantumCalculator.count_errors table + n)%nat
    else QuantumCalculator.count_errors table.
Proof.
  intros Hfresh. unfold QuantumCalculator.count_errors.
  rewrite map_fold_insert_L; [reflexivity | | assumption].
  intros j1 j2 z1 z2 y _ _ _.
  destruct (contains "1" j1), (contains "1" j2); lia.
Qed.

(** The loop of [calculate_error_rates] adds up exactly the counts of
    the outcomes that contain a ['1']. *)
Lemma count_errors_filter counts :
  QuantumCalculator.count_errors counts = sum_values (with_a_one counts).
Proof.
  induction counts as [|outcome n table Hfresh IH] using map_ind.
  - unfold with_a_one. rewrite map_filter_empty. reflexivity.
  - rewrite count_errors_insert by assumption.
    unfold with_a_one in *.
    destruct (contains "1" outcome) eqn:Hone.
    + rewrite map_filter_insert_True by (simpl; assumption).
      rewrite sum_values_insert.
      * rewrite IH. reflexivity.
      * apply map_lookup_filter_None_2. left. assumption.
    + rewrite map_filter_insert_not'.
      * assumption.
      * simpl. rewrite Hone. discriminate.
      * intros y Hy. rewrite Hfresh in Hy. discriminate.
Qed.

Lemma count_errors_le_sum_values counts :
  (QuantumCalculator.count_errors counts <= sum_values counts)%nat.
Proof.
  induction counts as [|outcome n table Hfresh IH] using map_ind.
  - unfold QuantumCalculator.count_errors. rewrite map_fold_empty. lia.
  - rewrite count_errors_insert, sum_values_insert by assumption.
    destruct (contains "1" outcome); lia.
Qed.

End Tables.

(** ** True division *)

Lemma round_half_even_bounds (n d k : Z) :
  0 < d -> 0 <= n <= d * k -> 0 <= round_half_even n d <= k.
Proof.
  intros Hd [Hn Hk]. unfold round_half_even.
  pose proof (Z.div_mod n d ltac:(lia)) as Hdm.
  pose proof (Z.mod_pos_bound n d Hd) as Hr.
  assert (Hq : 0 <= n / d) by (apply Z.div_pos; lia).
  assert (Hqk : n / d <= k) by (apply Z.div_le_upper_bound; lia).
  assert (Hlt : 0 < n mod d -> n / d < k) by nia.
  destruct (Z.ltb_spec (2 * (n mod d)) d); [lia|].
  destruct (Z.ltb_spec d (2 * (n mod d))); [lia|].
  destruct (Z.even (n / d)); lia.
Qed.

(** Rounding moves a quotient by at most one half. *)
Lemma round_half_even_error (n d : Z) :
  0 < d -> 2 * Z.abs (round_half_even n d * d - n) <= d.
Proof.
  intros Hd. unfold round_half_even.
  pose proof (Z.div_mod n d ltac:(lia)) as Hdm.
  pose proof (Z.mod_pos_bound n d Hd) as Hr.
  destruct (Z.ltb_spec (2 * (n mod d)) d); [nia|].
  destruct (Z.ltb_spec d (2 * (n mod d))); [nia|].
  destruct (Z.even (n / d)); nia.
Qed.

(** Where the quotient is a binary64 as written, [a / b] is the
    quotient. *)
Lemma true_div_exact (a b : Z) :
  b <> 0 -> Z.abs a < 2 ^ 53 -> is_power_of_two (Z.abs b) = true ->
  Z.abs b <= 2 ^ 1074 ->
  true_div a b = Ok (inject_Z a / inject_Z b)%Q.
Proof.
  intros Hb Ha Hpow Hsmall. unfold true_div, is_binary64_quotient.
  destruct (Z.eqb_spec b 0) as [?|_]; [contradiction|].
  rewrite Hpow.
  destruct (Z.ltb_spec (Z.abs a) (2 ^ 53)) as [_|?]; [|lia].
  destruct (Z.leb_spec (Z.abs b) (2 ^ 1074)) as [_|?]; [|lia].
  now rewrite orb_true_r.
Qed.

(** So are the quotients of [calculate_spin]. *)
Lemma true_div_by_1024 (k : Z) :
  0 <= k <= 1024 -> true_div k 1024 = Ok (inject_Z k / inject_Z 1024)%Q.
Proof.
  intros Hk. apply true_div_exact.
  - discriminate.
  - assert (H53 : 1024 < 2 ^ 53) by reflexivity. lia.
  - reflexivity.
  - intros Hgt. discriminate Hgt.
Qed.

(** A fraction of a count in a positive whole lies between 0 and 1. *)
Lemma quotient_between_0_and_1 (part whole : Z) :
  0 <= part <= whole -> 0 < whole ->
  (0 <= inject_Z part / inject_Z whole)%Q
  /\ (inject_Z part / inject_Z whole <= 1)%Q.
Proof.
  intros Hle Hpos.
  assert (Hw : (0 < inject_Z whole)%Q).
  { change 0%Q with (inject_Z 0). rewrite <- Zlt_Qlt. lia. }
  split.
  - apply Qle_shift_div_l; [assumption|].
    rewrite Qmult_0_l. change 0%Q with (inject_Z 0). rewrite <- Zle_Qle. lia.
  - apply Qle_shift_div_r; [assumption|].
    rewrite Qmult_1_l. rewrite <- Zle_Qle. lia.
Qed.

(** The binary64 nearest to a fraction [n / d] between 0 and 1: a
    multiple [m / 2^s] of a power of two, at least 52 bits fine. *)
Lemma nearest_binary64_fraction (n d : Z) :
  0 < n <= d ->
  exists m s,
    nearest_binary64 n d = Qmake m (Z.to_pos (2 ^ s))
    /\ 52 <= s /\ 0 <= m <= 2 ^ s
    /\ 2 * Z.abs (m * d - n * 2 ^ s) <= d.
Proof.
  intros [Hn Hd]. unfold nearest_binary64.
  set (e := Z.log2 n - Z.log2 d
            - (if n * 2 ^ Z.log2 d <? d * 2 ^ Z.log2 n then 1 else 0)).
  assert (He : e <= 0).
  { unfold e. pose proof (Z.log2_le_mono n d ltac:(lia)).
    destruct (_ <? _); lia. }
  set (s := Z.min 1074 (52 - e)).
  assert (Hs : 52 <= s) by (unfold s; lia).
  destruct (Z.leb_spec 0 s) as [_|?]; [|lia].
  assert (Hpow : 0 < 2 ^ s) by (apply Z.pow_pos_nonneg; lia).
  exists (round_half_even (n * 2 ^ s) d), s.
  split; [reflexivity|]. split; [assumption|]. split.
  - apply round_half_even_bounds; [lia|]. nia.
  - apply round_half_even_error. lia.
Qed.

(** The division of a count by a positive whole that holds it never
    fails; the float lies between 0 and 1, within [2^(-53)] of the
    quotient. *)
Lemma true_div_fraction (part whole : Z) :
  0 <= part <= whole -> 0 < whole ->
  exists rate,
    true_div part whole = Ok rate
    /\ (0 <= rate)%Q /\ (rate <= 1)%Q
    /\ (Qabs (rate - inject_Z part / inject_Z whole) <= 1 # 2 ^ 53)%Q.
Proof.
  intros Hle Hpos.
  destruct (quotient_between_0_and_1 part whole Hle Hpos) as [Hlo Hhi].
  unfold true_div.
  destruct (Z.eqb_spec whole 0) as [?|_]; [lia|].
  destruct (is_binary64_quotient part whole) eqn:Hexact.
  { eexists. split; [reflexivity|]. split; [exact Hlo|]. split; [exact Hhi|].
    assert (Hsame : (inject_Z part / inject_Z whole
                     - inject_Z part / inject_Z whole == 0)%Q) by ring.
    rewrite Hsame. discriminate. }
  assert (Hpart : 0 < part).
  { unfold is_binary64_quotient in Hexact.
    destruct (Z.eqb_spec part 0); [discriminate | lia]. }
  rewrite !Z.abs_eq by lia.
  destruct (nearest_binary64_fraction part whole ltac:(lia))
    as (m & s & -> & Hs & Hm & Herr).
  assert (Hpow : 0 < 2 ^ s) by (apply Z.pow_pos_nonneg; lia).
  assert (H53 : 2 ^ 53 <= 2 * 2 ^ s).
  { change (2 ^ 53) with (2 * 2 ^ 52).
    pose proof (Z.pow_le_mono_r 2 52 s ltac:(lia) Hs). lia. }
  assert (Hden : Z.pos (Z.to_pos (2 ^ s)) = 2 ^ s) by (apply Z2Pos.id; lia).
  revert Hm Herr Hpow H53 Hden.
  generalize (2 ^ s) as scale. intros scale Hm Herr Hscale H53 Hden.
  assert (Hf0 : (0 <= m # Z.to_pos scale)%Q).
  { unfold Qle. cbn [Qnum Qden]. rewrite Z.mul_0_l, Z.mul_1_r. apply Hm. }
  assert (Hf1 : (m # Z.to_pos scale <= 1)%Q).
  { unfold Qle. cbn [Qnum Qden]. rewrite Hden, Z.mul_1_r, Z.mul_1_l.
    apply Hm. }
  replace (Qle_bool (inject_Z (2 ^ 1024)) (m # Z.to_pos scale)) with false.
  2:{ symmetry. apply not_true_is_false. intros Hbig.
      apply Qle_bool_iff in Hbig.
      assert (Habs : (inject_Z (2 ^ 1024) <= 1)%Q)
        by (eapply Qle_trans; eassumption).
      revert Habs. vm_compute. intros Habs. apply Habs. reflexivity. }
  replace (Z.sgn part * Z.sgn whole <? 0) with false.
  2:{ symmetry. apply Z.ltb_ge.
      rewrite (Z.sgn_pos part), (Z.sgn_pos whole) by lia. lia. }
  eexists. split; [reflexivity|]. split; [exact Hf0|]. split; [exact Hf1|].
  destruct whole as [|p|p]; [lia | | lia].
  apply Qabs_Qle_condition.
  change (2 ^ 53)%positive with (Z.to_pos (2 ^ 53)).
  assert (Hulps : Z.pos (Z.to_pos (2 ^ 53)) = 2 ^ 53) by reflexivity.
  assert (Hulps0 : 0 < 2 ^ 53) by reflexivity.
  revert H53 Hulps Hulps0. generalize (2 ^ 53) as ulps.
  intros ulps H53 Hulps Hulps0.
  unfold Qle, Qminus, Qplus, Qopp, Qdiv, Qmult, Qinv, inject_Z.
  cbn [Qnum Qden].
  rewrite !Pos2Z.inj_mul, Hden, Hulps.
  replace (m * (1 * Z.pos p) + - (part * 1) * scale)
    with (m * Z.pos p - part * scale) by ring.
  revert Herr. generalize (m * Z.pos p - part * scale) as diff.
  intros diff Herr. nia.
Qed.

(** Python prints [2 / 3] as 0.6666666666666666 and [1 / 10] as 0.1:
    the floats [6004799503160661 / 2^53] and [7205759403792794 /
    2^56]; [3 / 4] is a float as it is. *)
Example true_div_rounds :
  true_div 2 3 = Ok (6004799503160661 # 2 ^ 53)
  /\ true_div 1 10 = Ok (7205759403792794 # 2 ^ 56)
  /\ true_div 3 4 = Ok (3 # 4)
  /\ true_div 1 0 = Raise ZeroDivisionError.
Proof. repeat split; vm_compute; reflexivity. Qed.

(** ** The circuits that the calculator builds *)

Ltac unfold_monad :=
  unfold mbind, M_bind, bind, mret, M_ret, ret, lift, raise, logging,
    logged, try_except.

Lemma forallb_below (n : nat) :
  forallb (fun k => (k <? n)%nat) (seq 0 n) = true.
Proof.
  apply forallb_forall. intros k Hk. apply in_seq in Hk.
  apply Nat.ltb_lt. lia.
Qed.

Lemma zip_with_diagonal {A B} (f : A -> A -> B) (l : list A) :
  zip_with f l l = map (fun a => f a a) l.
Proof. induction l as [|a l IH]; simpl; [reflexivity | now rewrite IH]. Qed.

Lemma range_conversion (n : Z) :
  bit_argument_conversion (Z.to_nat n) (Range n) = Ok (seq 0 (Z.to_nat n)).
Proof.
  unfold bit_argument_conversion, range. now rewrite forallb_below.
Qed.

Lemma index_0_conversion (size : nat) :
  bit_argument_conversion (S size) (Index 0) = Ok [0%nat].
Proof.
  unfold bit_argument_conversion.
  replace ((- Z.of_nat (S size) <=? 0) && (0 <? Z.of_nat (S size))) with true.
  - rewrite Z.mod_0_l by lia. reflexivity.
  - symmetry. apply andb_true_iff. split; [apply Z.leb_le | apply Z.ltb_lt]; lia.
Qed.

(** For a positive size, lines 41-44 build the H-then-measure circuit
    on that many qubits. *)
Lemma observe_circuit_positive (num_qubits : Z) (w : World) :
  0 < num_qubits ->
  QuantumCalculator.observe_circuit num_qubits w
  = (Ok (h_measure_circuit (Z.to_nat num_qubits)), count_circuit w).
Proof.
  intros Hpos. unfold QuantumCalculator.observe_circuit, new_QuantumCircuit.
  unfold_monad.
  destruct (Z.ltb_spec num_qubits 0) as [?|_]; [lia|].
  cbn [orb]. unfold h, append_gate1.
  cbn [qc_num_qubits qc_num_clbits qc_data].
  rewrite range_conversion.
  destruct (seq 0 (Z.to_nat num_qubits)) as [|q qs] eqn:Hseq.
  { destruct (Z.to_nat num_qubits) eqn:Hn; [lia | discriminate]. }
  rewrite <- Hseq. clear Hseq q qs.
  unfold measure, append. cbn [qc_num_qubits qc_num_clbits qc_data].
  rewrite range_conversion, Nat.eqb_refl.
  unfold save_statevector, append, h_measure_circuit.
  cbn [qc_num_qubits qc_num_clbits qc_data].
  rewrite zip_with_diagonal, <- app_assoc. reflexivity.
Qed.

Lemma has_measure_h_measure_circuit (n : nat) :
  (0 < n)%nat -> has_measure (h_measure_circuit n) = true.
Proof.
  intros Hn. unfold has_measure, h_measure_circuit. simpl.
  rewrite !existsb_app. destruct n as [|n]; [lia|]. simpl.
  now rewrite orb_true_r.
Qed.

(** Lines 93-98 build the X?-H-measure circuit; X is applied exactly
    when the argument is the string ["1"]. *)
Lemma spin_circuit_built (qubit_state : option string) (w : World) :
  QuantumCalculator.spin_circuit qubit_state w
  = (Ok (x_h_measure_circuit (QuantumCalculator.is_one qubit_state)),
     count_circuit w).
Proof.
  unfold QuantumCalculator.spin_circuit, new_QuantumCircuit. unfold_monad.
  simpl. destruct (QuantumCalculator.is_one qubit_state); reflexivity.
Qed.

(** ** observe_qubits, calculate_error_rates and calculate_spin *)

Section Measured.

Context {Statevector : Type}.
Variable final_state : QuantumCircuit -> Statevector.
Variable shot : Seed -> QuantumCircuit -> nat -> string.

Local Abbreviation run := (AerSimulator.run final_state shot).
Local Abbreviation sampled := (AerSimulator.sampled shot).
Local Abbreviation observe_qubits :=
  (QuantumCalculator.observe_qubits final_state shot).
Local Abbreviation calculate_error_rates :=
  (QuantumCalculator.calculate_error_rates final_state shot).
Local Abbreviation calculate_spin :=
  (QuantumCalculator.calculate_spin final_state shot).

Lemma sampled_sum w circuit shots :
  0 <= shots -> Z.of_nat (sum_values (sampled w circuit shots)) = shots.
Proof.
  intros Hshots. unfold AerSimulator.sampled.
  rewrite sum_values_tabulate, length_map, length_seq. lia.
Qed.


Lemma run_refuses_many_shots circuit shots w :
  Z.of_nat (qc_num_qubits circuit) <= max_qubits w ->
  max_shots w < shots ->
  run circuit shots w = (Raise AerSimulator.too_many_shots, w).
Proof.
  intros Hfits Hmany. unfold AerSimulator.run.
  destruct (Z.ltb_spec (max_qubits w) (Z.of_nat (qc_num_qubits circuit)))
    as [?|_]; [lia|].
  destruct (Z.ltb_spec (max_shots w) shots) as [_|?]; [reflexivity | lia].
Qed.

(** Within the capacity of the backend, a run with a positive shot
    count returns the state where the circuit saves it and the sampled
    table where the circuit measures. *)
Lemma run_within_capacity circuit shots w :
  Z.of_nat (qc_num_qubits circuit) <= max_qubits w ->
  0 < shots -> shots <= max_shots w ->
  run circuit shots w
  = (Ok (mkResult
           (if has_save circuit then Some (final_state circuit) else None)
           (if has_measure circuit then Some (sampled w circuit shots)
            else None)),
     count_run w).
Proof.
  intros Hfits Hshots Hmany. unfold AerSimulator.run.
  destruct (Z.ltb_spec (max_qubits w) (Z.of_nat (qc_num_qubits circuit)))
    as [?|_]; [lia|].
  destruct (Z.ltb_spec (max_shots w) shots) as [?|_]; [lia|].
  destruct (Z.leb_spec shots 0) as [?|_]; [lia|]. reflexivity.
Qed.

(** Building a circuit leaves the seed of the next execution as it
    was. *)
Lemma sampled_count_circuit w circuit shots :
  sampled (count_circuit w) circuit shots = sampled w circuit shots.
Proof. reflexivity. Qed.

(** A run of a measuring circuit with a positive shot count, within
    the capacity of the backend, returns the sampled table. *)
Lemma run_measuring circuit shots w :
  Z.of_nat (qc_num_qubits circuit) <= max_qubits w ->
  0 < shots -> shots <= max_shots w ->
  has_measure circuit = true ->
  exists state,
    run circuit shots w
    = (Ok (mkResult state (Some (sampled w circuit shots))), count_run w).
Proof.
  intros Hfits Hshots Hmany Hm.
  rewrite run_within_capacity by assumption.
  rewrite Hm. eexists. reflexivity.
Qed.

(** What a run of a measuring circuit returns holds counts or nothing
    at all: on it, the [get_counts] of the calculator is the library's
    [get_counts]. *)
Lemma get_counts_of_measuring_run circuit shots w r w' :
  has_measure circuit = true ->
  run circuit shots w = (Ok r, w') ->
  get_counts_or_probabilities r
  = match get_counts r with
    | Ok counts => Ok (SampledCounts counts)
    | Raise e => Raise e
    end.
Proof.
  intros Hm. unfold AerSimulator.run.
  destruct (max_qubits w <? Z.of_nat (qc_num_qubits circuit));
    [discriminate|].
  destruct (max_shots w <? shots); [discriminate|].
  destruct (shots <=? 0); intros [= <- _]; [reflexivity|].
  rewrite Hm. reflexivity.
Qed.

Lemma h_measure_circuit_qubits (n : nat) :
  qc_num_qubits (h_measure_circuit n) = n.
Proof. reflexivity. Qed.

Lemma observe_qubits_positive num_qubits shots w :
  0 < num_qubits -> num_qubits <= max_qubits w ->
  0 < shots -> shots <= max_shots w ->
  let counts :=
    sampled w (h_measure_circuit (Z.to_nat num_qubits)) shots in
  observe_qubits num_qubits shots w
  = (Ok counts,
     add_log INFO (MsgObserved counts) (count_run (count_circuit w))).
Proof.
  intros Hn Hfits Hshots Hmany counts.
  unfold QuantumCalculator.observe_qubits, QuantumCalculator.backend_run.
  unfold_monad. rewrite observe_circuit_positive by assumption.
  destruct (run_measuring (h_measure_circuit (Z.to_nat num_qubits)) shots
              (count_circuit w)) as [state Hrun].
  { rewrite h_measure_circuit_qubits.
    change (max_qubits (count_circuit w)) with (max_qubits w). lia. }
  { assumption. }
  { exact Hmany. }
  { apply has_measure_h_measure_circuit. lia. }
  rewrite Hrun. reflexivity.
Qed.

(** C2 (amended).  For every positive number of qubits that the
    backend simulates and every positive number of shots that it
    accepts, [observe_qubits] builds the circuit that applies H to
    every qubit and then measures every qubit, and returns the table
    sampled from that circuit, whose counts add up to exactly
    [shots]. *)
Theorem observe_qubits_counts_sum_to_shots num_qubits shots w :
  0 < num_qubits -> num_qubits <= max_qubits w ->
  0 < shots -> shots <= max_shots w ->
  exists counts w',
    QuantumCalculator.observe_circuit num_qubits w
    = (Ok (h_measure_circuit (Z.to_nat num_qubits)), count_circuit w)
    /\ observe_qubits num_qubits shots w = (Ok counts, w')
    /\ counts = sampled w (h_measure_circuit (Z.to_nat num_qubits)) shots
    /\ Z.of_nat (sum_values counts) = shots.
Proof.
  intros Hn Hfits Hshots Hmany. eexists _, _. split; [|split; [|split]].
  - apply observe_circuit_positive; assumption.
  - apply observe_qubits_positive; assumption.
  - reflexivity.
  - apply sampled_sum. lia.
Qed.

(** C1 (amended).  For every positive number of qubits that the
    backend simulates and every positive number of shots that it
    accepts, [calculate_error_rates] returns the sum of the counts of
    the outcomes that contain a ['1'], divided by the sum of all
    counts, of the table that [observe_qubits] samples from the
    H-then-measure circuit: the float of that division, which is
    within [2^(-53)] of the quotient and lies between 0 and 1. *)
Theorem calculate_error_rates_is_fraction_with_a_one num_qubits shots w :
  0 < num_qubits -> num_qubits <= max_qubits w ->
  0 < shots -> shots <= max_shots w ->
  exists counts w1 error_rate w2,
    observe_qubits num_qubits shots w = (Ok counts, w1)
    /\ counts = sampled w (h_measure_circuit (Z.to_nat num_qubits)) shots
    /\ calculate_error_rates num_qubits shots w = (Ok error_rate, w2)
    /\ true_div (Z.of_nat (sum_values (with_a_one counts)))
         (Z.of_nat (sum_values counts))
       = Ok error_rate
    /\ (Qabs (error_rate
              - inject_Z (Z.of_nat (sum_values (with_a_one counts)))
                / inject_Z (Z.of_nat (sum_values counts)))
        <= 1 # 2 ^ 53)%Q
    /\ (0 <= error_rate)%Q /\ (error_rate <= 1)%Q.
Proof.
  intros Hn Hfits Hshots Hmany.
  pose proof (observe_qubits_positive num_qubits shots w Hn Hfits Hshots
                Hmany) as Hobs.
  cbv zeta in Hobs.
  set (counts := sampled w (h_measure_circuit (Z.to_nat num_qubits)) shots)
    in *.
  assert (Hsum : Z.of_nat (sum_values counts) = shots)
    by (apply sampled_sum; lia).
  destruct (true_div_fraction (Z.of_nat (QuantumCalculator.count_errors counts))
              (Z.of_nat (sum_values counts)))
    as (error_rate & Hdiv & Hlo & Hhi & Hnear).
  { pose proof (count_errors_le_sum_values counts). lia. }
  { lia. }
  exists counts. eexists. exists error_rate. eexists.
  split; [exact Hobs|]. split; [reflexivity|].
  split; [|split; [|split; [|split]]].
  - unfold QuantumCalculator.calculate_error_rates. unfold_monad.
    rewrite Hobs. cbv zeta. rewrite Hdiv. reflexivity.
  - rewrite <- count_errors_filter. exact Hdiv.
  - rewrite <- count_errors_filter. exact Hnear.
  - exact Hlo.
  - exact Hhi.
Qed.

Lemma has_measure_x_h_measure_circuit flip :
  has_measure (x_h_measure_circuit flip) = true.
Proof. destruct flip; reflexivity. Qed.

Lemma calculate_spin_value qubit_state w :
  let circuit := x_h_measure_circuit (QuantumCalculator.is_one qubit_state) in
  let spin :=
    (inject_Z (Z.of_nat (get (sampled w circuit 1024) "1"))
     / inject_Z 1024)%Q in
  calculate_spin qubit_state w
  = (Ok spin, add_log INFO (MsgSpin spin) (count_run (count_circuit w))).
Proof.
  intros circuit spin. subst spin.
  unfold QuantumCalculator.calculate_spin, QuantumCalculator.backend_run.
  unfold_monad. rewrite spin_circuit_built. fold circuit.
  destruct (run_measuring circuit 1024 (count_circuit w)) as [state Hrun].
  { unfold circuit, max_qubits. destruct (QuantumCalculator.is_one _);
      cbn [x_h_measure_circuit qc_num_qubits]; lia. }
  { lia. }
  { unfold max_shots. lia. }
  { apply has_measure_x_h_measure_circuit. }
  rewrite Hrun. unfold get_counts. cbn [res_counts].
  rewrite sampled_count_circuit.
  rewrite true_div_by_1024; [reflexivity|].
  pose proof (get_le_sum_values (sampled w circuit 1024) "1") as Hle.
  pose proof (sampled_sum w circuit 1024 ltac:(lia)) as Hsum.
  lia.
Qed.

(** C3.  [calculate_spin] builds the one-qubit circuit that applies X
    first exactly when the argument is the string ["1"], then H, then
    measures; it runs 1024 shots and returns the count of outcome
    ["1"] divided by 1024, a value between 0 and 1. *)
Theorem calculate_spin_is_fraction_of_ones qubit_state w :
  exists circuit counts spin w',
    QuantumCalculator.spin_circuit qubit_state w
    = (Ok circuit, count_circuit w)
    /\ qc_data circuit
       = ((if decide (qubit_state = Some "1") then [XGate 0] else [])
          ++ [HGate 0; Measure 0 0; SaveStatevector])%list
    /\ qc_num_qubits circuit = 1%nat
    /\ counts = sampled w circuit 1024
    /\ calculate_spin qubit_state w = (Ok spin, w')
    /\ spin = (inject_Z (Z.of_nat (get counts "1")) / inject_Z 1024)%Q
    /\ (0 <= spin)%Q /\ (spin <= 1)%Q.
Proof.
  set (circuit := x_h_measure_circuit (QuantumCalculator.is_one qubit_state)).
  set (counts := sampled w circuit 1024).
  assert (Hsum : Z.of_nat (sum_values counts) = 1024).
  { unfold counts. rewrite sampled_sum; lia. }
  destruct (quotient_between_0_and_1 (Z.of_nat (get counts "1")) 1024)
    as (Hlo & Hhi).
  { pose proof (get_le_sum_values counts "1"). lia. }
  { lia. }
  exists circuit, counts. eexists. eexists.
  split; [apply spin_circuit_built|].
  split.
  { unfold circuit, x_h_measure_circuit, QuantumCalculator.is_one. simpl.
    destruct qubit_state as [s|].
    - destruct (String.eqb_spec s "1") as [->|Hne].
      + rewrite decide_True by reflexivity. reflexivity.
      + rewrite decide_False by congruence. reflexivity.
    - rewrite decide_False by discriminate. reflexivity. }
  split; [reflexivity|]. split; [reflexivity|].
  split; [apply calculate_spin_value|].
  split; [reflexivity|].
  split; [exact Hlo | exact Hhi].
Qed.


End Measured.

(** ** calculate_gate_variables *)

Local Abbreviation calculate_gate_variables :=
  QuantumCalculator.calculate_gate_variables.

Lemma apply_named_gate_unsupported gate_type angle qubit circuit :
  ~ In (upper gate_type) gate_kinds ->
  QuantumCalculator.apply_named_gate gate_type angle qubit circuit
  = Raise (ValueError "Unsupported gate type.").
Proof.
  intros Hout. unfold QuantumCalculator.apply_named_gate.
  repeat match goal with
         | |- context [String.eqb ?a ?b] =>
             destruct (String.eqb_spec a b) as [Heq|_];
             [exfalso; apply Hout; rewrite Heq; unfold gate_kinds; simpl; tauto|]
         end.
  reflexivity.
Qed.

(** C6 (amended).  For every gate name whose upper-cased form is
    outside H, X, RX, RY, RZ, and every qubit index that is not
    negative, [calculate_gate_variables] raises
    [ValueError("Unsupported gate type.")] and returns no circuit. *)
Theorem unsupported_gate_raises gate_type angle qubit w :
  0 <= qubit ->
  ~ In (upper gate_type) gate_kinds ->
  calculate_gate_variables gate_type angle qubit w
  = (Raise (ValueError "Unsupported gate type."),
     add_log ERROR
       (MsgErrorIn "calculate_gate_variables"
          (ValueError "Unsupported gate type."))
       (count_circuit w)).
Proof.
  intros Hq Hout.
  unfold QuantumCalculator.calculate_gate_variables, new_QuantumCircuit.
  unfold_monad.
  destruct (Z.ltb_spec (qubit + 1) 0) as [?|_]; [lia|].
  cbn [orb Z.ltb Z.compare].
  rewrite apply_named_gate_unsupported by assumption. reflexivity.
Qed.

(** A one-qubit gate on an integer index appends one instruction of
    that gate and leaves the registers as they are. *)
Lemma append_gate1_index gate i c c' :
  append_gate1 gate (Index i) c = Ok c' ->
  exists q, c' = append [gate q] c.
Proof.
  unfold append_gate1, bit_argument_conversion.
  destruct ((- Z.of_nat (qc_num_qubits c) <=? i)
            && (i <? Z.of_nat (qc_num_qubits c))); [|discriminate].
  intros [= <-]. eexists. reflexivity.
Qed.

Lemma apply_named_gate_appends gate_type angle qubit c c' :
  QuantumCalculator.apply_named_gate gate_type angle qubit c = Ok c' ->
  exists instr, c' = append [instr] c /\ is_measure instr = false.
Proof.
  unfold QuantumCalculator.apply_named_gate, rx, ry, rz, h, x.
  repeat match goal with
         | |- context [String.eqb ?a ?b] => destruct (String.eqb a b)
         end;
    try discriminate;
    intros Happ; apply append_gate1_index in Happ as [q ->];
    eexists; (split; [reflexivity | reflexivity]).
Qed.

(** The circuit of a successful [calculate_gate_variables]: [qubit+1]
    qubits, no classical bit, one gate and the state capture. *)
Lemma gate_circuit_shape gate_type angle qubit w circuit w' :
  calculate_gate_variables gate_type angle qubit w = (Ok circuit, w') ->
  exists instr,
    circuit = mkCircuit (Z.to_nat (qubit + 1)) 0 [instr; SaveStatevector]
    /\ is_measure instr = false
    /\ w' = add_log INFO (MsgAppliedGate gate_type angle qubit)
              (count_circuit w).
Proof.
  unfold QuantumCalculator.calculate_gate_variables, new_QuantumCircuit.
  unfold_monad.
  destruct ((qubit + 1 <? 0) || (0 <? 0)); [discriminate|].
  destruct (QuantumCalculator.apply_named_gate gate_type angle qubit _)
    as [c1|e] eqn:Hgate; [|discriminate].
  apply apply_named_gate_appends in Hgate as (instr & -> & Hinstr).
  unfold save_statevector, append. cbn [qc_num_qubits qc_num_clbits qc_data].
  intros [= <- <-]. exists instr.
  split; [reflexivity | split; [assumption | reflexivity]].
Qed.

Section Gates.

Context {Statevector : Type}.
Variable final_state : QuantumCircuit -> Statevector.
Variable shot : Seed -> QuantumCircuit -> nat -> string.

Local Abbreviation run := (AerSimulator.run final_state shot).

(** A circuit of that shape has nothing to sample: a run that the
    backend accepts captures the state and holds no outcome table. *)
Lemma run_gate_circuit nqubits instr shots w :
  0 < shots -> shots <= max_shots w ->
  is_measure instr = false ->
  let circuit := mkCircuit nqubits 0 [instr; SaveStatevector] in
  has_measure circuit = false
  /\ run circuit shots w
     = if max_qubits w <? Z.of_nat nqubits
       then (Raise AerSimulator.insufficient_memory, w)
       else (Ok (mkResult (Some (final_state circuit)) None), count_run w).
Proof.
  intros Hshots Hmany Hinstr circuit.
  assert (Hm : has_measure circuit = false).
  { unfold has_measure. simpl. rewrite Hinstr. reflexivity. }
  split; [exact Hm|].
  unfold AerSimulator.run. rewrite Hm.
  change (qc_num_qubits circuit) with nqubits.
  destruct (max_qubits w <? Z.of_nat nqubits); [reflexivity|].
  destruct (Z.ltb_spec (max_shots w) shots) as [?|_]; [lia|].
  destruct (Z.leb_spec shots 0) as [?|_]; [lia|].
  replace (has_save circuit) with true; [reflexivity|].
  unfold has_save. simpl. now rewrite orb_true_r.
Qed.

(** C9 (what the code does).  For a qubit index that is not negative,
    the circuit that [calculate_gate_variables] returns has exactly
    [qubit + 1] qubits, no classical bit and no measurement; running
    it with 1024 shots, as [apply_gate] does, samples no outcome table
    in any world: where the backend simulates [qubit + 1] qubits the
    run captures the final state and holds no table, and where it does
    not the run is refused. *)
Theorem gate_report_samples_no_table gate_type angle qubit w circuit w' :
  0 <= qubit ->
  calculate_gate_variables gate_type angle qubit w = (Ok circuit, w') ->
  Z.of_nat (qc_num_qubits circuit) = qubit + 1
  /\ qc_num_clbits circuit = 0%nat
  /\ has_measure circuit = false
  /\ forall w1,
       run circuit 1024 w1
       = if max_qubits w1 <? qubit + 1
         then (Raise AerSimulator.insufficient_memory, w1)
         else (Ok (mkResult (Some (final_state circuit)) None),
               count_run w1).
Proof.
  intros Hq Hbuilt.
  apply gate_circuit_shape in Hbuilt as (instr & -> & Hinstr & _).
  split; [simpl; lia|]. split; [reflexivity|].
  split.
  - apply (run_gate_circuit _ instr 1024 w);
      [lia | unfold max_shots; lia | assumption].
  - intros w1.
    destruct (run_gate_circuit (Z.to_nat (qubit + 1)) instr 1024 w1)
      as [_ Hrun]; [lia | unfold max_shots; lia | assumption |].
    rewrite Hrun, Z2Nat.id by lia. reflexivity.
Qed.

(** What [apply_gate] then displays as measurement results for a
    supported gate is not a sampled table: [get_counts] answers with
    the probabilities of the state that the run has captured. *)
Lemma apply_gate_displays_state_probabilities
    gate_type angle qubit w circuit w' :
  0 <= qubit -> qubit + 1 <= max_qubits w ->
  calculate_gate_variables gate_type angle qubit w = (Ok circuit, w') ->
  QuantumVerseCalculatorGUI.apply_gate final_state shot
    gate_type (Some angle) (Some qubit) w
  = (QuantumVerseCalculatorGUI.Displayed
       (final_state circuit, StateProbabilities (final_state circuit)),
     count_run w').
Proof.
  intros Hq Hfits Hbuilt.
  unfold QuantumVerseCalculatorGUI.apply_gate,
    QuantumVerseCalculatorGUI.handle, QuantumVerseCalculatorGUI.to_float,
    QuantumVerseCalculatorGUI.int, QuantumCalculator.backend_run.
  unfold_monad.
  destruct (Z.ltb_spec qubit 0) as [?|_]; [lia|].
  rewrite Hbuilt.
  apply gate_circuit_shape in Hbuilt as (instr & -> & Hinstr & ->).
  destruct (run_gate_circuit (Z.to_nat (qubit + 1)) instr 1024
              (add_log INFO (MsgAppliedGate gate_type angle qubit)
                 (count_circuit w)))
    as [_ Hrun]; [lia | unfold max_shots; lia | assumption |].
  rewrite Hrun, Z2Nat.id by lia.
  change (max_qubits (add_log INFO (MsgAppliedGate gate_type angle qubit)
                        (count_circuit w)))
    with (max_qubits w).
  destruct (Z.ltb_spec (max_qubits w) (qubit + 1)) as [?|_]; [lia|].
  reflexivity.
Qed.

End Gates.

(** ** grovers_speed_between_qubits *)

Section Grover.

Variable grover_library : QuantumCircuit -> M Z.

Local Abbreviation grovers_speed_between_qubits :=
  (QuantumCalculator.grovers_speed_between_qubits grover_library).

(** Where the import fails nothing else happens: the function logs and
    raises its own [ImportError]. *)
Lemma grovers_without_module target_state num_qubits w :
  grover_module w = false ->
  grovers_speed_between_qubits target_state num_qubits w
  = (Raise module_not_found, add_log ERROR MsgGroverModuleNotFound w).
Proof.
  intros Hmod.
  unfold QuantumCalculator.grovers_speed_between_qubits,
    QuantumCalculator.grovers_body, QuantumCalculator.import_Grover.
  unfold_monad. rewrite Hmod. reflexivity.
Qed.

(** Where the import succeeds, the length check is the first thing
    that happens. *)
Lemma grovers_length_checked_first target_state num_qubits w :
  grover_module w = true ->
  len target_state <> num_qubits ->
  grovers_speed_between_qubits target_state num_qubits w
  = (Raise length_mismatch,
     add_log ERROR
       (MsgErrorIn "grovers_speed_between_qubits" length_mismatch) w).
Proof.
  intros Hmod Hlen.
  unfold QuantumCalculator.grovers_speed_between_qubits,
    QuantumCalculator.grovers_body, QuantumCalculator.import_Grover.
  unfold_monad. rewrite Hmod.
  destruct (Z.eqb_spec (len target_state) num_qubits) as [?|_];
    [contradiction|].
  reflexivity.
Qed.


(** X14.  The handler [run_grovers] answers a target whose length is
    not the number of qubits with its "Invalid Input" box: the length
    [ValueError] of the calculator is caught by the handler's
    [except ValueError]; no circuit has been constructed. *)
Lemma run_grovers_length_mismatch target_state num_qubits w :
  grover_module w = true ->
  len target_state <> num_qubits ->
  exists w',
    QuantumVerseCalculatorGUI.run_grovers grover_library target_state
      (Some num_qubits) w
    = (QuantumVerseCalculatorGUI.MessageBox
         (QuantumVerseCalculatorGUI.InvalidInput
            "Please enter a valid binary target state and positive number of qubits."),
       w')
    /\ circuits w' = circuits w.
Proof.
  intros Hmod Hlen.
  pose proof (grovers_length_checked_first target_state num_qubits w
                Hmod Hlen) as Hcall.
  unfold QuantumVerseCalculatorGUI.run_grovers,
    QuantumVerseCalculatorGUI.handle, QuantumVerseCalculatorGUI.int.
  unfold_monad.
  destruct ((num_qubits <=? 0)
            || negb (QuantumVerseCalculatorGUI.all_binary target_state)).
  - eexists. split; reflexivity.
  - rewrite Hcall. eexists. split; reflexivity.
Qed.

(** C4 (what the code does).  On the one-qubit target ["1"] the oracle's
    [cz(num_qubits - 1, num_qubits - 2)] is [cz(0, -1)]: both indices
    name qubit 0, the circuit builder refuses the duplicate, and
    [grovers_speed_between_qubits] raises before the Grover library is
    called, whatever that library computes. *)
Theorem grovers_single_qubit_raises w :
  grovers_speed_between_qubits "1" 1 w
  = if grover_module w
    then (Raise (CircuitError "duplicate qubit arguments"),
          add_log ERROR
            (MsgErrorIn "grovers_speed_between_qubits"
               (CircuitError "duplicate qubit arguments"))
            (count_circuit w))
    else (Raise module_not_found, add_log ERROR MsgGroverModuleNotFound w).
Proof.
  destruct (grover_module w) eqn:Hmod.
  - unfold QuantumCalculator.grovers_speed_between_qubits,
      QuantumCalculator.grovers_body, QuantumCalculator.import_Grover.
    unfold_monad. rewrite Hmod. reflexivity.
  - apply grovers_without_module. assumption.
Qed.

End Grover.

(** ** The sizes that observe_qubits is given *)

Section Guard.

Context {Statevector : Type}.
Variable final_state : QuantumCircuit -> Statevector.
Variable shot : Seed -> QuantumCircuit -> nat -> string.

Local Abbreviation run := (AerSimulator.run final_state shot).
Local Abbreviation observe_qubits :=
  (QuantumCalculator.observe_qubits final_state shot).




(** ** Sampling and the seed *)

(** The table of an execution is the table under the seed that the
    backend draws for it. *)
Lemma sampled_is_under_drawn_seed w circuit shots :
  AerSimulator.sampled shot w circuit shots
  = AerSimulator.sampled_under shot (entropy w (runs w)) circuit shots.
Proof. reflexivity. Qed.


End Guard.

(** ** The theorems at concrete inputs, on the reference backend *)

Lemma observe_qubits_counts_sum_to_shots_witness :
  0 < 2 /\ 2 <= max_qubits Reference.fresh
  /\ 0 < 16 /\ 16 <= max_shots Reference.fresh
  /\ exists counts w',
       QuantumCalculator.observe_circuit 2 Reference.fresh
       = (Ok (h_measure_circuit (Z.to_nat 2)), count_circuit Reference.fresh)
       /\ QuantumCalculator.observe_qubits Reference.final_state
            Reference.shot 2 16 Reference.fresh = (Ok counts, w')
       /\ counts = AerSimulator.sampled Reference.shot Reference.fresh
                     (h_measure_circuit (Z.to_nat 2)) 16
       /\ Z.of_nat (sum_values counts) = 16.
Proof.
  assert (Hfits : 2 <= max_qubits Reference.fresh) by (vm_compute; discriminate).
  assert (Hmany : 16 <= max_shots Reference.fresh) by (vm_compute; discriminate).
  split; [lia | split; [exact Hfits | split; [lia | split; [exact Hmany|]]]].
  apply (observe_qubits_counts_sum_to_shots
           Reference.final_state Reference.shot 2 16 Reference.fresh);
    [lia | exact Hfits | lia | exact Hmany].
Defined.

(** C2, as stated, fails: 64 qubits and 1 shot are positive numbers,
    and so are 1 qubit and 2^64 shots, yet [observe_qubits] returns no
    outcome table for them: the backend refuses a register that its
    memory does not hold and a shot count above the one it accepts. *)
Lemma observe_qubits_refused_by_backend :
  0 < 64 /\ 0 < 1
  /\ fst (QuantumCalculator.observe_qubits Reference.final_state
            Reference.shot 64 1 Reference.fresh)
     = Raise AerSimulator.insufficient_memory
  /\ 0 < 1 /\ 0 < 2 ^ 64
  /\ fst (QuantumCalculator.observe_qubits Reference.final_state
            Reference.shot 1 (2 ^ 64) Reference.fresh)
     = Raise AerSimulator.too_many_shots.
Proof.
  split; [lia | split; [lia | split; [vm_compute; reflexivity|]]].
  split; [lia | split; [lia | vm_compute; reflexivity]].
Qed.

Lemma calculate_error_rates_is_fraction_with_a_one_witness :
  0 < 2 /\ 2 <= max_qubits Reference.fresh
  /\ 0 < 16 /\ 16 <= max_shots Reference.fresh
  /\ exists counts w1 error_rate w2,
       QuantumCalculator.observe_qubits Reference.final_state
         Reference.shot 2 16 Reference.fresh = (Ok counts, w1)
       /\ counts = AerSimulator.sampled Reference.shot Reference.fresh
                     (h_measure_circuit (Z.to_nat 2)) 16
       /\ QuantumCalculator.calculate_error_rates Reference.final_state
            Reference.shot 2 16 Reference.fresh = (Ok error_rate, w2)
       /\ true_div (Z.of_nat (sum_values (with_a_one counts)))
            (Z.of_nat (sum_values counts))
          = Ok error_rate
       /\ (Qabs (error_rate
                 - inject_Z (Z.of_nat (sum_values (with_a_one counts)))
                   / inject_Z (Z.of_nat (sum_values counts)))
           <= 1 # 2 ^ 53)%Q
       /\ (0 <= error_rate)%Q /\ (error_rate <= 1)%Q.
Proof.
  assert (Hfits : 2 <= max_qubits Reference.fresh) by (vm_compute; discriminate).
  assert (Hmany : 16 <= max_shots Reference.fresh) by (vm_compute; discriminate).
  split; [lia | split; [exact Hfits | split; [lia | split; [exact Hmany|]]]].
  apply (calculate_error_rates_is_fraction_with_a_one
           Reference.final_state Reference.shot 2 16 Reference.fresh);
    [lia | exact Hfits | lia | exact Hmany].
Defined.

(** C1, as stated, fails: 64 qubits and 1 shot are positive numbers,
    yet [calculate_error_rates] returns no value for them: the backend
    refuses the register, and the method raises the refusal again. *)
Lemma calculate_error_rates_refused_by_backend :
  0 < 64 /\ 0 < 1
  /\ fst (QuantumCalculator.calculate_error_rates Reference.final_state
            Reference.shot 64 1 Reference.fresh)
     = Raise AerSimulator.insufficient_memory.
Proof.
  split; [lia | split; [lia | vm_compute; reflexivity]].
Qed.




Lemma unsupported_gate_raises_witness :
  0 <= 0 /\ ~ In (upper "cnot") gate_kinds
  /\ QuantumCalculator.calculate_gate_variables "cnot" 0%float 0 Reference.fresh
     = (Raise (ValueError "Unsupported gate type."),
        add_log ERROR
          (MsgErrorIn "calculate_gate_variables"
             (ValueError "Unsupported gate type."))
          (count_circuit Reference.fresh)).
Proof.
  assert (Hout : ~ In (upper "cnot") gate_kinds)
    by (simpl; intuition discriminate).
  split; [lia | split; [exact Hout|]].
  apply (unsupported_gate_raises "cnot" 0%float 0 Reference.fresh);
    [lia | exact Hout].
Defined.

(** C6, as stated, fails: the name ["rx"] is not one of H, X, RX, RY,
    RZ, yet [calculate_gate_variables] accepts it and returns the RX
    circuit, because the name is upper-cased before it is compared. *)
Lemma lowercase_gate_is_accepted :
  ~ In "rx" gate_kinds
  /\ fst (QuantumCalculator.calculate_gate_variables "rx" 0%float 0
            Reference.fresh)
     = Ok (mkCircuit 1 0 [RXGate 0%float 0; SaveStatevector]).
Proof.
  split; [simpl; intuition discriminate | reflexivity].
Qed.

Lemma gate_report_samples_no_table_witness :
  let circuit := mkCircuit 1 0 [HGate 0; SaveStatevector] in
  0 <= 0
  /\ QuantumCalculator.calculate_gate_variables "H" 0%float 0 Reference.fresh
     = (Ok circuit,
        add_log INFO (MsgAppliedGate "H" 0%float 0)
          (count_circuit Reference.fresh))
  /\ Z.of_nat (qc_num_qubits circuit) = 0 + 1
  /\ qc_num_clbits circuit = 0%nat
  /\ has_measure circuit = false
  /\ forall w1,
       AerSimulator.run Reference.final_state Reference.shot circuit 1024 w1
       = if max_qubits w1 <? 0 + 1
         then (Raise AerSimulator.insufficient_memory, w1)
         else (Ok (mkResult (Some (Reference.final_state circuit)) None),
               count_run w1).
Proof.
  intros circuit.
  split; [lia | split; [reflexivity|]].
  apply (gate_report_samples_no_table Reference.final_state Reference.shot
           "H" 0%float 0 Reference.fresh circuit
           (add_log INFO (MsgAppliedGate "H" 0%float 0)
              (count_circuit Reference.fresh)));
    [lia | reflexivity].
Defined.





(** On the reference backend, the gate H on qubit 0: what the
    handler displays as measurement results is computed from the
    captured state. *)
Example apply_gate_reference :
  fst (QuantumVerseCalculatorGUI.apply_gate Reference.final_state
         Reference.shot "H" (Some 0%float) (Some 0) Reference.fresh)
  = QuantumVerseCalculatorGUI.Displayed
      ([Reference.Plus], StateProbabilities [Reference.Plus]).
Proof. reflexivity. Qed.

(** Where the Grover library computes the analytic estimate, the
    two-qubit target ["11"] gets 2 iterations; the estimate for one
    qubit is 1, which the one-qubit call never returns. *)
Example grovers_two_qubits_reference :
  fst (QuantumCalculator.grovers_speed_between_qubits
         Reference.grover_library "11" 2 Reference.fresh) = Ok 2
  /\ Reference.iteration_estimate 1 = 1
  /\ fst (QuantumCalculator.grovers_speed_between_qubits
            Reference.grover_library "1" 1 Reference.fresh)
     = Raise (CircuitError "duplicate qubit arguments").
Proof. repeat split; reflexivity. Qed.

Example observe_qubits_reference :
  (map_to_list <$>
     match fst (QuantumCalculator.observe_qubits Reference.final_state
                  Reference.shot 2 16 Reference.fresh) with
     | Ok counts => Some counts
     | Raise _ => None
     end)
  = Some [("11", 3%nat); ("10", 4%nat); ("01", 5%nat); ("00", 4%nat)].
Proof. vm_compute. reflexivity. Qed.

(** * Further properties of the code *)

(** ** The error count of calculate_error_rates *)

Section ErrorCount.

Implicit Types (counts table : Counts) (outcome : string).

(** Every entry is counted on exactly one side of the test of line
    60. *)
Lemma count_errors_partition counts :
  (QuantumCalculator.count_errors counts + sum_values (without_a_one counts)
   = sum_values counts)%nat.
Proof.
  induction counts as [|outcome n table Hfresh IH] using map_ind.
  - unfold QuantumCalculator.count_errors, without_a_one.
    rewrite map_filter_empty, map_fold_empty, sum_values_empty. reflexivity.
  - rewrite count_errors_insert, sum_values_insert by assumption.
    unfold without_a_one in *.
    destruct (contains "1" outcome) eqn:Hone.
    + rewrite map_filter_insert_not'.
      * lia.
      * simpl. rewrite Hone. discriminate.
      * intros y Hy. rewrite Hfresh in Hy. discriminate.
    + rewrite map_filter_insert_True by (simpl; assumption).
      rewrite sum_values_insert; [lia|].
      apply map_lookup_filter_None_2. left. assumption.
Qed.

Lemma contains_one_zeros n : contains "1" (zeros n) = false.
Proof. induction n as [|n IH]; simpl; [reflexivity | exact IH]. Qed.

(** The only bitstring of a given length without a ['1'] is the
    all-zero one. *)
Lemma bitstring_without_one n : forall s,
  is_bitstring n s -> contains "1" s = false -> s = zeros n.
Proof.
  induction n as [|n IH]; intros s [Hlen Hbin] Hone.
  - destruct s; [reflexivity | discriminate].
  - destruct s as [|a s]; [discriminate|].
    cbn [String.length] in Hlen.
    cbn [QuantumVerseCalculatorGUI.all_binary contains] in Hbin, Hone.
    assert (Hlen' : String.length s = n) by lia.
    apply andb_true_iff in Hbin as [Ha Hbin].
    destruct (Ascii.eqb_spec a "1") as [->|Hne1]; [discriminate|].
    destruct (Ascii.eqb_spec "0" a) as [<-|Hne0].
    + cbn [zeros]. f_equal. apply IH; [split; assumption | assumption].
    + destruct (Ascii.eqb_spec "1" a) as [Heq|_];
        [symmetry in Heq; contradiction | discriminate].
Qed.

Lemma get_insert table outcome key (n : nat) :
  get (<[outcome := n]> table) key
  = if decide (outcome = key) then n else get table key.
Proof.
  unfold get. rewrite lookup_insert. destruct (decide (outcome = key));
    reflexivity.
Qed.

(** X1.  On a table whose outcomes are all bitstrings of one length,
    the error count of lines 58-61 and the count of the all-zero
    outcome add up to the total: the errors are exactly the shots that
    did not measure all zeros. *)
Theorem count_errors_is_total_minus_all_zero counts n :
  map_Forall (fun outcome _ => is_bitstring n outcome) counts ->
  (QuantumCalculator.count_errors counts + get counts (zeros n)
   = sum_values counts)%nat.
Proof.
  induction counts as [|outcome c table Hfresh IH] using map_ind;
    intros Hbits.
  - unfold QuantumCalculator.count_errors, get.
    rewrite map_fold_empty, sum_values_empty, lookup_empty. reflexivity.
  - apply map_Forall_insert in Hbits as [Hout Hrest]; [|assumption].
    specialize (IH Hrest).
    rewrite count_errors_insert, sum_values_insert, get_insert by assumption.
    destruct (contains "1" outcome) eqn:Hone.
    + destruct (decide (outcome = zeros n)) as [->|_]; [|lia].
      rewrite contains_one_zeros in Hone. discriminate.
    + rewrite (bitstring_without_one n outcome Hout Hone) in *.
      rewrite decide_True by reflexivity.
      unfold get in IH. rewrite Hfresh in IH. simpl in IH. lia.
Qed.

End ErrorCount.

(** ** Failures of observe_qubits and calculate_error_rates *)

Section Failures.

Context {Statevector : Type}.
Variable final_state : QuantumCircuit -> Statevector.
Variable shot : Seed -> QuantumCircuit -> nat -> string.

Local Abbreviation run := (AerSimulator.run final_state shot).
Local Abbreviation observe_qubits :=
  (QuantumCalculator.observe_qubits final_state shot).
Local Abbreviation calculate_error_rates :=
  (QuantumCalculator.calculate_error_rates final_state shot).

(** Whatever table [observe_qubits] returns for a positive shot count
    holds exactly that many shots. *)
Lemma observe_qubits_returns_all_shots num_qubits shots w counts w' :
  0 < shots ->
  observe_qubits num_qubits shots w = (Ok counts, w') ->
  Z.of_nat (sum_values counts) = shots.
Proof.
  intros Hshots.
  unfold QuantumCalculator.observe_qubits, QuantumCalculator.backend_run.
  unfold_monad.
  destruct (QuantumCalculator.observe_circuit num_qubits w) as [[c|e] w1];
    [|discriminate].
  unfold AerSimulator.run.
  destruct (max_qubits w1 <? Z.of_nat (qc_num_qubits c)); [discriminate|].
  destruct (max_shots w1 <? shots); [discriminate|].
  destruct (Z.leb_spec shots 0) as [?|_]; [lia|].
  unfold get_counts. cbn [res_counts].
  destruct (has_measure c); [|discriminate].
  intros [= <- _]. apply sampled_sum. lia.
Qed.

(** X2.  With a positive shot count [calculate_error_rates] never
    divides by zero: it returns a rate whenever [observe_qubits]
    returns a table, and otherwise raises the very exception that
    [observe_qubits] raised, after logging it a second time under its
    own name. *)
Theorem calculate_error_rates_fails_only_with_observe_qubits
    num_qubits shots w :
  0 < shots ->
  match observe_qubits num_qubits shots w with
  | (Ok counts, w1) =>
      exists error_rate,
        calculate_error_rates num_qubits shots w
        = (Ok error_rate, add_log INFO (MsgErrorRate error_rate) w1)
  | (Raise e, w1) =>
      calculate_error_rates num_qubits shots w
      = (Raise e, add_log ERROR (MsgErrorIn "calculate_error_rates" e) w1)
  end.
Proof.
  intros Hshots.
  destruct (observe_qubits num_qubits shots w) as [[counts|e] w1] eqn:Hobs.
  - pose proof (observe_qubits_returns_all_shots _ _ _ _ _ Hshots Hobs)
      as Hsum.
    destruct (true_div_fraction
                (Z.of_nat (QuantumCalculator.count_errors counts))
                (Z.of_nat (sum_values counts))) as (error_rate & Hdiv & _).
    { pose proof (count_errors_le_sum_values counts). lia. }
    { lia. }
    exists error_rate.
    unfold QuantumCalculator.calculate_error_rates. unfold_monad.
    rewrite Hobs. cbv zeta. rewrite Hdiv. reflexivity.
  - unfold QuantumCalculator.calculate_error_rates. unfold_monad.
    rewrite Hobs. reflexivity.
Qed.

End Failures.

(** ** The gates that calculate_gate_variables accepts *)

Lemma index_last_conversion (qubit : Z) :
  0 <= qubit ->
  bit_argument_conversion (Z.to_nat (qubit + 1)) (Index qubit)
  = Ok [Z.to_nat qubit].
Proof.
  intros Hq. unfold bit_argument_conversion.
  replace ((- Z.of_nat (Z.to_nat (qubit + 1)) <=? qubit)
           && (qubit <? Z.of_nat (Z.to_nat (qubit + 1)))) with true.
  - rewrite Z.mod_small by lia. reflexivity.
  - symmetry. apply andb_true_iff.
    split; [apply Z.leb_le | apply Z.ltb_lt]; lia.
Qed.

Lemma apply_named_gate_supported gate_type angle qubit instr :
  0 <= qubit ->
  named_gate (upper gate_type) angle (Z.to_nat qubit) = Some instr ->
  QuantumCalculator.apply_named_gate gate_type angle qubit
    (mkCircuit (Z.to_nat (qubit + 1)) 0 [])
  = Ok (mkCircuit (Z.to_nat (qubit + 1)) 0 [instr]).
Proof.
  intros Hq. unfold named_gate, QuantumCalculator.apply_named_gate.
  unfold rx, ry, rz, h, x, append_gate1. cbn [qc_num_qubits].
  rewrite index_last_conversion by assumption.
  repeat match goal with
         | |- context [String.eqb ?a ?b] => destruct (String.eqb a b)
         end;
    intros [= <-]; reflexivity.
Qed.

(** X3.  For a qubit index that is not negative and a name whose
    upper-cased form is one of RX, RY, RZ, H, X,
    [calculate_gate_variables] returns the circuit on [qubit + 1]
    qubits whose only gate is the named one, placed on qubit [qubit]
    (the last of the register) with the given angle, followed by the
    state capture; it logs the gate as the caller spelled it. *)
Theorem calculate_gate_variables_supported gate_type angle qubit w instr :
  0 <= qubit ->
  named_gate (upper gate_type) angle (Z.to_nat qubit) = Some instr ->
  QuantumCalculator.calculate_gate_variables gate_type angle qubit w
  = (Ok (mkCircuit (Z.to_nat (qubit + 1)) 0 [instr; SaveStatevector]),
     add_log INFO (MsgAppliedGate gate_type angle qubit) (count_circuit w)).
Proof.
  intros Hq Hnamed.
  unfold QuantumCalculator.calculate_gate_variables, new_QuantumCircuit.
  unfold_monad.
  destruct (Z.ltb_spec (qubit + 1) 0) as [?|_]; [lia|].
  cbn [orb Z.ltb Z.compare].
  rewrite (apply_named_gate_supported _ _ _ instr) by assumption.
  reflexivity.
Qed.

(** X4.  The gate name counts only through its upper-cased form, and
    for H and X the angle does not count at all: two calls that agree
    on the upper-cased name and on the qubit, and on the angle unless
    the gate is H or X, return the same circuit or raise the same
    exception. *)
Theorem calculate_gate_variables_case_and_angle
    gate_type1 gate_type2 angle1 angle2 qubit w :
  upper gate_type1 = upper gate_type2 ->
  angle1 = angle2 \/ In (upper gate_type1) ["H"; "X"] ->
  fst (QuantumCalculator.calculate_gate_variables gate_type1 angle1 qubit w)
  = fst (QuantumCalculator.calculate_gate_variables gate_type2 angle2 qubit w).
Proof.
  intros Hupper Hangle.
  assert (Hgate : forall c,
             QuantumCalculator.apply_named_gate gate_type1 angle1 qubit c
             = QuantumCalculator.apply_named_gate gate_type2 angle2 qubit c).
  { intros c. unfold QuantumCalculator.apply_named_gate.
    rewrite <- Hupper.
    destruct Hangle as [->|Hhx]; [reflexivity|].
    destruct Hhx as [<-|[<-|[]]]; reflexivity. }
  unfold QuantumCalculator.calculate_gate_variables, new_QuantumCircuit.
  unfold_monad.
  destruct ((qubit + 1 <? 0) || (0 <? 0)); [reflexivity|].
  rewrite Hgate.
  destruct (QuantumCalculator.apply_named_gate gate_type2 angle2 qubit _);
    reflexivity.
Qed.

(** ** The oracle of grovers_speed_between_qubits *)

Lemma x_index (i : nat) (c : QuantumCircuit) :
  (i < qc_num_qubits c)%nat ->
  x (Index (Z.of_nat i)) c = Ok (append [XGate i] c).
Proof.
  intros Hi. unfold x, append_gate1, bit_argument_conversion.
  replace ((- Z.of_nat (qc_num_qubits c) <=? Z.of_nat i)
           && (Z.of_nat i <? Z.of_nat (qc_num_qubits c))) with true.
  - rewrite Z.mod_small by lia. rewrite Nat2Z.id. reflexivity.
  - symmetry. apply andb_true_iff.
    split; [apply Z.leb_le | apply Z.ltb_lt]; lia.
Qed.

Lemma append_append (l1 l2 : list Instruction) (c : QuantumCircuit) :
  append l2 (append l1 c) = append (l1 ++ l2) c.
Proof. unfold append. simpl. now rewrite app_assoc. Qed.

(** The loop of lines 119-121 (and 123-125) appends one X per ['0'] of
    the target, in order, as long as the positions exist. *)
Lemma flip_zero_bits_appends (bits : string) : forall (i : nat) c,
  (i + String.length bits <= qc_num_qubits c)%nat ->
  QuantumCalculator.flip_zero_bits (Z.of_nat i) bits c
  = Ok (append (map XGate (zero_positions i bits)) c).
Proof.
  induction bits as [|bit rest IH]; intros i c Hfit.
  - simpl. unfold append. rewrite app_nil_r. now destruct c.
  - cbn [QuantumCalculator.flip_zero_bits zero_positions String.length] in *.
    replace (Z.of_nat i + 1) with (Z.of_nat (S i)) by lia.
    destruct (Ascii.eqb bit "0").
    + rewrite x_index by lia. rewrite IH by (simpl; lia).
      rewrite append_append. reflexivity.
    + apply IH. lia.
Qed.

Lemma flip_zero_bits_from_start (bits : string) c :
  (String.length bits <= qc_num_qubits c)%nat ->
  QuantumCalculator.flip_zero_bits 0 bits c
  = Ok (append (map XGate (zero_positions 0 bits)) c).
Proof. intros Hfit. apply (flip_zero_bits_appends bits 0 c). lia. Qed.

Lemma cz_last_two (c : QuantumCircuit) :
  (2 <= qc_num_qubits c)%nat ->
  cz (Z.of_nat (qc_num_qubits c) - 1) (Z.of_nat (qc_num_qubits c) - 2) c
  = Ok (append [CZGate (qc_num_qubits c - 1) (qc_num_qubits c - 2)] c).
Proof.
  intros Hn. unfold cz, bit_argument_conversion.
  set (n := qc_num_qubits c) in *.
  replace ((- Z.of_nat n <=? Z.of_nat n - 1) && (Z.of_nat n - 1 <? Z.of_nat n))
    with true
    by (symmetry; apply andb_true_iff;
        split; [apply Z.leb_le | apply Z.ltb_lt]; lia).
  replace ((- Z.of_nat n <=? Z.of_nat n - 2) && (Z.of_nat n - 2 <? Z.of_nat n))
    with true
    by (symmetry; apply andb_true_iff;
        split; [apply Z.leb_le | apply Z.ltb_lt]; lia).
  rewrite !Z.mod_small by lia.
  replace (Z.to_nat (Z.of_nat n - 1)) with (n - 1)%nat by lia.
  replace (Z.to_nat (Z.of_nat n - 2)) with (n - 2)%nat by lia.
  destruct (Nat.eqb_spec (n - 1) (n - 2)) as [?|_]; [lia | reflexivity].
Qed.

Section Oracle.

Variable grover_library : QuantumCircuit -> M Z.

Local Abbreviation grovers_speed_between_qubits :=
  (QuantumCalculator.grovers_speed_between_qubits grover_library).

(** X5.  For a target of two or more characters whose length is the
    number of qubits, and with the Grover module present, the circuit
    handed to the Grover library is the oracle with an X on every
    position where the target has a ['0'], one CZ on the last two
    qubits whatever the size, and the same X gates again; what the
    library then reports is logged and returned unchanged. *)
Theorem grovers_hands_oracle_to_library target_state w :
  grover_module w = true ->
  (2 <= String.length target_state)%nat ->
  QuantumCalculator.grovers_body grover_library target_state
    (len target_state) w
  = (iterations ← grover_library (grover_oracle target_state);
     logging INFO (MsgGroverIterations iterations);;
     mret iterations) (count_circuit w)
  /\ forall iterations w1,
       grover_library (grover_oracle target_state) (count_circuit w)
       = (Ok iterations, w1) ->
       grovers_speed_between_qubits target_state (len target_state) w
       = (Ok iterations, add_log INFO (MsgGroverIterations iterations) w1).
Proof.
  intros Hmod Hlen.
  assert (Hbody :
    QuantumCalculator.grovers_body grover_library target_state
      (len target_state) w
    = (iterations ← grover_library (grover_oracle target_state);
       logging INFO (MsgGroverIterations iterations);;
       mret iterations) (count_circuit w)).
  { unfold QuantumCalculator.grovers_body, QuantumCalculator.import_Grover,
      new_QuantumCircuit.
    unfold_monad. rewrite Hmod, Z.eqb_refl. cbn [negb].
    unfold len.
    destruct (Z.ltb_spec (Z.of_nat (String.length target_state)) 0)
      as [?|_]; [lia|].
    cbn [orb Z.ltb Z.compare]. rewrite Nat2Z.id.
    set (n := String.length target_state) in *.
    change (Z.to_nat 0) with 0%nat.
    rewrite (flip_zero_bits_from_start target_state
               (mkCircuit n 0 [])) by (simpl; lia).
    set (c1 := append _ (mkCircuit n 0 [])).
    assert (Hn1 : qc_num_qubits c1 = n) by reflexivity.
    pose proof (cz_last_two c1) as Hcz. rewrite Hn1 in Hcz.
    rewrite Hcz by lia.
    set (c2 := append _ c1).
    rewrite (flip_zero_bits_from_start target_state c2) by (simpl; lia).
    unfold save_statevector.
    replace (append [SaveStatevector] _) with (grover_oracle target_state).
    - reflexivity.
    - unfold c2, c1. rewrite !append_append.
      unfold append, grover_oracle. cbn [qc_num_qubits qc_num_clbits qc_data].
      fold n. reflexivity. }
  split; [exact Hbody|].
  intros iterations w1 Hlib.
  unfold QuantumCalculator.grovers_speed_between_qubits, try_except.
  rewrite Hbody. unfold_monad. rewrite Hlib. reflexivity.
Qed.

(** X6.  With fewer than two qubits [grovers_speed_between_qubits]
    never returns an iteration count: whatever the target and whatever
    the Grover library would answer, the call raises. *)
Theorem grovers_needs_two_qubits target_state num_qubits w :
  num_qubits < 2 ->
  exists e w',
    grovers_speed_between_qubits target_state num_qubits w = (Raise e, w').
Proof.
  intros Hn.
  destruct (grover_module w) eqn:Hmod.
  2:{ eexists _, _. apply grovers_without_module. assumption. }
  destruct (Z.eq_dec (len target_state) num_qubits) as [Hlen|Hlen].
  2:{ eexists _, _. apply grovers_length_checked_first; assumption. }
  unfold QuantumCalculator.grovers_speed_between_qubits,
    QuantumCalculator.grovers_body, QuantumCalculator.import_Grover,
    new_QuantumCircuit.
  unfold_monad. rewrite Hmod. subst num_qubits. rewrite Z.eqb_refl.
  cbn [negb]. unfold len in *.
  destruct target_state as [|bit [|bit' rest]];
    cbn [String.length] in Hn; [| |lia].
  - eexists _, _. reflexivity.
  - cbn [QuantumCalculator.flip_zero_bits].
    destruct (Ascii.eqb bit "0"); eexists _, _; reflexivity.
Qed.

End Oracle.

(** ** The handlers of the GUI *)

Section HandlerProperties.

Context {Statevector : Type}.
Variable final_state : QuantumCircuit -> Statevector.
Variable shot : Seed -> QuantumCircuit -> nat -> string.
Variable grover_library : QuantumCircuit -> M Z.

Local Abbreviation sampled := (AerSimulator.sampled shot).
Local Abbreviation MessageBox := QuantumVerseCalculatorGUI.MessageBox.
Local Abbreviation Displayed := QuantumVerseCalculatorGUI.Displayed.
Local Abbreviation InvalidInput := QuantumVerseCalculatorGUI.InvalidInput.

Ltac unfold_handler :=
  unfold QuantumVerseCalculatorGUI.handle, QuantumVerseCalculatorGUI.int,
    QuantumVerseCalculatorGUI.to_float;
  unfold_monad.

(** X7.  The handlers [observe_qubits] and [calculate_error_rate]
    answer entries that are not two positive integers (an entry that
    does not read as an integer, a size or a shot count of zero or
    less) with the "Invalid Input" box, and do nothing else: no
    circuit, no run, no log record. *)
Theorem size_handlers_refuse_bad_entries qubits_entry shots_entry w :
  positive_sizes qubits_entry shots_entry = false ->
  QuantumVerseCalculatorGUI.observe_qubits final_state shot
    qubits_entry shots_entry w
  = (MessageBox (InvalidInput QuantumVerseCalculatorGUI.positive_integers), w)
  /\ QuantumVerseCalculatorGUI.calculate_error_rate final_state shot
       qubits_entry shots_entry w
     = (MessageBox (InvalidInput QuantumVerseCalculatorGUI.positive_integers),
        w).
Proof.
  intros Hbad.
  unfold QuantumVerseCalculatorGUI.observe_qubits,
    QuantumVerseCalculatorGUI.calculate_error_rate.
  unfold_handler.
  destruct qubits_entry as [n|]; [|split; reflexivity].
  destruct shots_entry as [s|]; [|split; reflexivity].
  cbn [positive_sizes] in Hbad.
  assert (Hguard : (n <=? 0) || (s <=? 0) = true).
  { apply andb_false_iff in Hbad as [Hb|Hb]; apply Z.ltb_ge in Hb;
      apply orb_true_iff; [left | right]; apply Z.leb_le; lia. }
  rewrite Hguard. split; reflexivity.
Qed.

(** X8.  On two positive integers that the backend accepts (a size
    that it simulates, a shot count within its limit) both handlers go
    through: the one displays the table sampled from the
    H-then-measure circuit, whose counts add up to the shots entry; the
    other displays a rate between 0 and 1; each has built one circuit
    and run the backend once. *)
Theorem size_handlers_display num_qubits shots w :
  positive_sizes (Some num_qubits) (Some shots) = true ->
  num_qubits <= max_qubits w -> shots <= max_shots w ->
  (exists counts w',
     QuantumVerseCalculatorGUI.observe_qubits final_state shot
       (Some num_qubits) (Some shots) w = (Displayed counts, w')
     /\ counts = sampled w (h_measure_circuit (Z.to_nat num_qubits)) shots
     /\ Z.of_nat (sum_values counts) = shots
     /\ circuits w' = S (circuits w) /\ runs w' = S (runs w))
  /\ (exists error_rate w',
        QuantumVerseCalculatorGUI.calculate_error_rate final_state shot
          (Some num_qubits) (Some shots) w = (Displayed error_rate, w')
        /\ (0 <= error_rate)%Q /\ (error_rate <= 1)%Q
        /\ circuits w' = S (circuits w) /\ runs w' = S (runs w)).
Proof.
  intros Hok Hfits Hmany. cbn [positive_sizes] in Hok.
  apply andb_true_iff in Hok as [Hn Hs].
  apply Z.ltb_lt in Hn. apply Z.ltb_lt in Hs.
  assert (Hguard : (num_qubits <=? 0) || (shots <=? 0) = false).
  { apply orb_false_iff. split; apply Z.leb_gt; assumption. }
  pose proof (observe_qubits_positive final_state shot num_qubits shots w
                Hn Hfits Hs Hmany) as Hobs.
  cbv zeta in Hobs.
  set (counts := sampled w (h_measure_circuit (Z.to_nat num_qubits)) shots)
    in *.
  assert (Hsum : Z.of_nat (sum_values counts) = shots)
    by (apply sampled_sum; lia).
  split.
  - exists counts. eexists.
    split; [|split; [reflexivity | split; [exact Hsum|]]].
    + unfold QuantumVerseCalculatorGUI.observe_qubits. unfold_handler.
      rewrite Hguard, Hobs. reflexivity.
    + split; reflexivity.
  - destruct (true_div_fraction
                (Z.of_nat (QuantumCalculator.count_errors counts))
                (Z.of_nat (sum_values counts)))
      as (error_rate & Hdiv & Hlo & Hhi & _).
    { pose proof (count_errors_le_sum_values counts). lia. }
    { lia. }
    exists error_rate. eexists.
    split; [|split; [exact Hlo | split; [exact Hhi|]]].
    + unfold QuantumVerseCalculatorGUI.calculate_error_rate,
        QuantumCalculator.calculate_error_rates.
      unfold_handler. rewrite Hguard, Hobs. cbv zeta. rewrite Hdiv.
      reflexivity.
    + split; reflexivity.
Qed.

(** X9.  [apply_gate] answers an angle that does not read as a float,
    a qubit index that does not read as an integer, or a negative
    index with its "Invalid Input" box and does nothing else: no
    circuit is built, nothing is run or logged. *)
Theorem apply_gate_refuses_bad_entries gate_type angle_entry qubit_entry w :
  gate_entries_pass angle_entry qubit_entry = false ->
  QuantumVerseCalculatorGUI.apply_gate final_state shot
    gate_type angle_entry qubit_entry w
  = (MessageBox (InvalidInput "Please enter a valid qubit index and angle."),
     w).
Proof.
  intros Hbad.
  unfold QuantumVerseCalculatorGUI.apply_gate. unfold_handler.
  destruct angle_entry as [angle|]; [|reflexivity].
  destruct qubit_entry as [qubit|]; [|reflexivity].
  cbn [gate_entries_pass] in Hbad. apply Z.leb_gt in Hbad.
  destruct (Z.ltb_spec qubit 0) as [_|?]; [reflexivity | lia].
Qed.


(** X11.  The handler [calculate_spin] has nothing to refuse: for
    every string of its combobox it displays a value between 0 and 1,
    after one circuit and one run, and never opens a message box. *)
Theorem calculate_spin_handler_displays qubit_state w :
  exists spin w',
    QuantumVerseCalculatorGUI.calculate_spin final_state shot qubit_state w
    = (Displayed spin, w')
    /\ (0 <= spin)%Q /\ (spin <= 1)%Q
    /\ circuits w' = S (circuits w) /\ runs w' = S (runs w).
Proof.
  set (circuit :=
         x_h_measure_circuit (QuantumCalculator.is_one (Some qubit_state))).
  set (counts := sampled w circuit 1024).
  assert (Hsum : Z.of_nat (sum_values counts) = 1024).
  { unfold counts. rewrite sampled_sum; lia. }
  destruct (quotient_between_0_and_1 (Z.of_nat (get counts "1")) 1024)
    as (Hlo & Hhi).
  { pose proof (get_le_sum_values counts "1"). lia. }
  { lia. }
  eexists. eexists. split; [|split; [exact Hlo | split; [exact Hhi|]]].
  - unfold QuantumVerseCalculatorGUI.calculate_spin,
      QuantumVerseCalculatorGUI.handle.
    rewrite (calculate_spin_value final_state shot (Some qubit_state) w).
    reflexivity.
  - split; reflexivity.
Qed.

(** X12.  [run_grovers] answers a qubit count that does not read as a
    positive integer, or a target with a character other than ['0'] and
    ['1'], with its "Invalid Input" box and does nothing else: the
    calculator is not called, so not even the import is attempted. *)
Theorem run_grovers_refuses_bad_entries target_state qubits_entry w :
  grover_entries_pass target_state qubits_entry = false ->
  QuantumVerseCalculatorGUI.run_grovers grover_library target_state
    qubits_entry w
  = (MessageBox
       (InvalidInput
          "Please enter a valid binary target state and positive number of qubits."),
     w).
Proof.
  intros Hbad.
  unfold QuantumVerseCalculatorGUI.run_grovers. unfold_handler.
  destruct qubits_entry as [n|]; [|reflexivity].
  cbn [grover_entries_pass] in Hbad.
  assert (Hguard : (n <=? 0)
                   || negb (QuantumVerseCalculatorGUI.all_binary target_state)
                   = true).
  { apply andb_false_iff in Hbad as [Hb| ->].
    - apply Z.ltb_ge in Hb. apply orb_true_iff. left. apply Z.leb_le. lia.
    - apply orb_true_r. }
  rewrite Hguard. reflexivity.
Qed.

(** X13.  Where the Grover module does not import, every entry that
    passes the guard of [run_grovers] ends in the "Import Error" box
    with the update hint, whether or not the target has the right
    length: the import comes before the length check.  The failure is
    logged twice, by the calculator and by the handler. *)
Theorem run_grovers_without_module target_state num_qubits w :
  grover_module w = false ->
  grover_entries_pass target_state (Some num_qubits) = true ->
  QuantumVerseCalculatorGUI.run_grovers grover_library target_state
    (Some num_qubits) w
  = (MessageBox
       (QuantumVerseCalculatorGUI.ImportErrorBox
          "Grover's algorithm module not found. Please update Qiskit using 'pip install --upgrade qiskit'."),
     add_log ERROR
       (MsgText
          "Grover's algorithm module not found. Please update Qiskit using 'pip install --upgrade qiskit'.")
       (add_log ERROR MsgGroverModuleNotFound w)).
Proof.
  intros Hmod Hpass. cbn [grover_entries_pass] in Hpass.
  apply andb_true_iff in Hpass as [Hn Hbin]. apply Z.ltb_lt in Hn.
  unfold QuantumVerseCalculatorGUI.run_grovers. unfold_handler.
  destruct (Z.leb_spec num_qubits 0) as [?|_]; [lia|].
  rewrite Hbin. cbn [negb orb].
  pose proof (grovers_without_module grover_library target_state num_qubits
                w Hmod) as Hcall.
  rewrite Hcall. reflexivity.
Qed.

End HandlerProperties.

(** ** The on-screen log *)

Lemma string_append_assoc (s1 s2 s3 : string) :
  ((s1 ++ s2) ++ s3 = s1 ++ (s2 ++ s3))%string.
Proof.
  induction s1 as [|a s1 IH]; [reflexivity|].
  change (String a ((s1 ++ s2) ++ s3) = String a (s1 ++ (s2 ++ s3)))%string.
  now rewrite IH.
Qed.

Lemma string_append_empty (s : string) : (s ++ EmptyString = s)%string.
Proof.
  induction s as [|a s IH]; [reflexivity|].
  change (String a (s ++ EmptyString) = String a s)%string.
  now rewrite IH.
Qed.

Lemma lines_app (l1 l2 : list string) :
  LogPane.lines (l1 ++ l2) = (LogPane.lines l1 ++ LogPane.lines l2)%string.
Proof.
  induction l1 as [|m l1 IH]; [reflexivity|].
  cbn [LogPane.lines app]. rewrite IH, !string_append_assoc. reflexivity.
Qed.

(** The loop appends the queued messages to the text, first in first
    out. *)
Lemma drain_lines (queue : list string) : forall text,
  LogPane.drain queue text = (text ++ LogPane.lines queue)%string.
Proof.
  induction queue as [|m rest IH]; intros text;
    cbn [LogPane.drain LogPane.lines].
  - now rewrite string_append_empty.
  - rewrite IH, !string_append_assoc. reflexivity.
Qed.

Lemma log_all_queue (messages : list string) : forall pane,
  fold_left (fun p m => LogPane.log m p) messages pane
  = LogPane.mkPane (LogPane.log_queue pane ++ messages)
      (LogPane.log_text pane).
Proof.
  induction messages as [|m rest IH]; intros pane; simpl.
  - rewrite app_nil_r. now destruct pane.
  - rewrite IH. unfold LogPane.log. simpl. now rewrite <- app_assoc.
Qed.

(** X15.  Whatever is logged reaches the screen once and in order:
    after any number of calls of [log], [process_log_queue] leaves the
    queue empty and has appended to the text, each on a line of its
    own, first the messages that were still queued and then the new
    ones in the order of the calls. *)
Theorem process_log_queue_delivers_in_order messages pane :
  LogPane.process_log_queue
    (fold_left (fun p m => LogPane.log m p) messages pane)
  = LogPane.mkPane []
      (LogPane.log_text pane
       ++ LogPane.lines (LogPane.log_queue pane)
       ++ LogPane.lines messages)%string.
Proof.
  rewrite log_all_queue. unfold LogPane.process_log_queue. simpl.
  rewrite drain_lines, lines_app. reflexivity.
Qed.

(** ** Themes *)

Section Themes.

Import Look.

Implicit Types (db : gmap (string * string) Value) (key : string * string).

Lemma overwrites_id : overwrites [] (fun db => db).
Proof.
  intros key. split; [|reflexivity].
  intros Hin. apply elem_of_nil in Hin. contradiction.
Qed.

Lemma overwrites_set_options name options :
  overwrites (keys_of name options) (set_options name options).
Proof.
  induction options as [|option rest IH]; intros key.
  - split; [|reflexivity].
    intros Hin. apply elem_of_nil in Hin. contradiction.
  - unfold set_options in *. cbn [fold_left keys_of map] in *.
    destruct (IH key) as [IHin IHout].
    destruct (decide (key ∈ keys_of name rest)) as [Hrest|Hrest].
    + split; [intros _ db1 db2; apply IHin; assumption|].
      intros Hout. exfalso. apply Hout. right. exact Hrest.
    + split.
      * intros Hin db1 db2. apply elem_of_cons in Hin as [->|Hin];
          [|contradiction].
        rewrite !(IHout Hrest). now rewrite !lookup_insert_eq.
      * intros Hout db. rewrite (IHout Hrest).
        apply lookup_insert_ne. intros <-. apply Hout. left.
Qed.

Lemma overwrites_compose keys1 keys2 f1 f2 :
  overwrites keys1 f1 -> overwrites keys2 f2 ->
  overwrites (keys1 ++ keys2) (fun db => f2 (f1 db)).
Proof.
  intros H1 H2 key. destruct (H1 key) as [H1in H1out].
  destruct (H2 key) as [H2in H2out].
  split.
  - intros Hin db1 db2.
    destruct (decide (key ∈ keys2)) as [Hk2|Hk2]; [now apply H2in|].
    rewrite !(H2out Hk2). apply H1in.
    apply elem_of_app in Hin as [?|?]; [assumption | contradiction].
  - intros Hout db. rewrite H2out, H1out; [reflexivity | |];
      intros Hin; apply Hout, elem_of_app; [left | right]; assumption.
Qed.

(** Two updates of the same options: the second one alone decides. *)
Lemma overwrites_twice keys f g db :
  overwrites keys f -> overwrites keys g -> g (f db) = g db.
Proof.
  intros Hf Hg. apply map_eq. intros key.
  destruct (Hf key) as [_ Hfout]. destruct (Hg key) as [Hgin Hgout].
  destruct (decide (key ∈ keys)) as [Hin|Hout].
  - apply Hgin. assumption.
  - rewrite !(Hgout Hout). apply Hfout. assumption.
Qed.

Lemma change_theme_fields theme win :
  change_theme theme win
  = mkWindow (if String.eqb theme "Light" then "#ECF0F1" else "#2C3E50")
             (if String.eqb theme "Light" then "#ffffff" else "#34495E")
             "black"
             (restyle theme (style win)).
Proof.
  unfold restyle, change_theme. destruct (String.eqb theme "Light");
    reflexivity.
Qed.

Lemma overwrites_ext keys f g :
  (forall db, f db = g db) -> overwrites keys g -> overwrites keys f.
Proof.
  intros Hfg Hg key. destruct (Hg key) as [Hin Hout]. split.
  - intros Hkey db1 db2. rewrite !Hfg. now apply Hin.
  - intros Hkey db. rewrite Hfg. now apply Hout.
Qed.

Lemma overwrites_then_set keys f name options :
  overwrites keys f ->
  overwrites (keys ++ keys_of name options)
    (fun db => set_options name options (f db)).
Proof.
  intros Hf. apply (overwrites_compose keys _ f (set_options name options));
    [assumption | apply overwrites_set_options].
Qed.

Lemma overwrites_keys keys keys' f :
  overwrites keys f -> keys = keys' -> overwrites keys' f.
Proof. intros Hf <-. exact Hf. Qed.

(** The calls of a branch, reduced to what they do to the style
    database. *)
Ltac style_of_calls :=
  lazy beta iota zeta
       delta [style configure map_ master_configure log_text_config].

(** Both branches set the same options, and no other. *)
Lemma restyle_overwrites theme : overwrites themed_options (restyle theme).
Proof.
  destruct (String.eqb theme "Light") eqn:Htheme.
  - eapply overwrites_ext.
    + intros db. unfold restyle, change_theme. rewrite Htheme.
      style_of_calls. reflexivity.
    + cbv beta. eapply overwrites_keys.
      * repeat (eapply overwrites_then_set). apply overwrites_id.
      * reflexivity.
  - eapply overwrites_ext.
    + intros db. unfold restyle, change_theme. rewrite Htheme.
      style_of_calls. reflexivity.
    + cbv beta. eapply overwrites_keys.
      * repeat (eapply overwrites_then_set). apply overwrites_id.
      * reflexivity.
Qed.

(** X16.  The last theme selected decides the whole themed look: the
    window after two selections is the window after the second one
    alone, so nothing of a previous theme is left behind and selecting
    a theme twice changes nothing more. *)
Theorem change_theme_last_selection_wins theme1 theme2 win :
  change_theme theme2 (change_theme theme1 win) = change_theme theme2 win.
Proof.
  rewrite (change_theme_fields theme2 (change_theme theme1 win)).
  rewrite (change_theme_fields theme2 win).
  f_equal.
  rewrite (change_theme_fields theme1 win). cbn [style].
  apply (overwrites_twice themed_options); apply restyle_overwrites.
Qed.

(** On the startup window the branch for the dark theme sets every
    option to the value it already has. *)
Lemma dark_restyle_keeps_startup theme base :
  theme <> "Light" ->
  restyle theme (style (startup base)) = style (startup base).
Proof.
  intros Hdark. unfold restyle, change_theme.
  destruct (String.eqb_spec theme "Light") as [?|_]; [contradiction|].
  unfold startup, create_widgets. style_of_calls.
  unfold set_options. cbn [fold_left map fst snd].
  repeat (rewrite insert_id by (simplify_map_eq; reflexivity)).
  reflexivity.
Qed.

(** X17.  The dark theme is the startup look: whatever theme was
    selected before, selecting any theme other than ["Light"] brings
    the window back to exactly what [main] and [create_widgets] set
    up, the options that no theme touches included. *)
Theorem change_theme_restores_startup previous theme base :
  theme <> "Light" ->
  change_theme theme (change_theme previous (startup base)) = startup base.
Proof.
  intros Hdark.
  rewrite (change_theme_fields theme).
  rewrite (change_theme_fields previous). cbn [style].
  rewrite (overwrites_twice themed_options) by apply restyle_overwrites.
  rewrite dark_restyle_keeps_startup by assumption.
  destruct (String.eqb_spec theme "Light") as [?|_]; [contradiction|].
  reflexivity.
Qed.

End Themes.

(** ** The further properties at concrete inputs *)

Lemma count_errors_is_total_minus_all_zero_witness :
  let counts : Counts := <["01" := 5%nat]> {["00" := 3%nat]} in
  map_Forall (fun outcome _ => is_bitstring 2 outcome) counts
  /\ (QuantumCalculator.count_errors counts + get counts (zeros 2)
      = sum_values counts)%nat.
Proof.
  intros counts.
  assert (Hbits : map_Forall (fun outcome _ => is_bitstring 2 outcome) counts).
  { apply map_Forall_insert_2; [split; reflexivity|].
    apply map_Forall_singleton. split; reflexivity. }
  split; [exact Hbits|].
  apply (count_errors_is_total_minus_all_zero counts 2). exact Hbits.
Defined.

Lemma calculate_error_rates_fails_only_with_observe_qubits_witness :
  0 < 16
  /\ match QuantumCalculator.observe_qubits Reference.final_state
             Reference.shot 2 16 Reference.fresh with
     | (Ok counts, w1) =>
         exists error_rate,
           QuantumCalculator.calculate_error_rates Reference.final_state
             Reference.shot 2 16 Reference.fresh
           = (Ok error_rate, add_log INFO (MsgErrorRate error_rate) w1)
     | (Raise e, w1) =>
         QuantumCalculator.calculate_error_rates Reference.final_state
           Reference.shot 2 16 Reference.fresh
         = (Raise e,
            add_log ERROR (MsgErrorIn "calculate_error_rates" e) w1)
     end.
Proof.
  split; [lia|].
  apply (calculate_error_rates_fails_only_with_observe_qubits
           Reference.final_state Reference.shot 2 16 Reference.fresh).
  lia.
Defined.

Lemma calculate_gate_variables_supported_witness :
  0 <= 2
  /\ named_gate (upper "ry") 0.5%float (Z.to_nat 2)
     = Some (RYGate 0.5%float 2)
  /\ QuantumCalculator.calculate_gate_variables "ry" 0.5%float 2
       Reference.fresh
     = (Ok (mkCircuit (Z.to_nat (2 + 1)) 0
              [RYGate 0.5%float 2; SaveStatevector]),
        add_log INFO (MsgAppliedGate "ry" 0.5%float 2)
          (count_circuit Reference.fresh)).
Proof.
  split; [lia | split; [reflexivity|]].
  apply (calculate_gate_variables_supported "ry" 0.5%float 2 Reference.fresh
           (RYGate 0.5%float 2)); [lia | reflexivity].
Defined.

Lemma calculate_gate_variables_case_and_angle_witness :
  upper "h" = upper "H"
  /\ (0%float = 1%float \/ In (upper "h") ["H"; "X"])
  /\ fst (QuantumCalculator.calculate_gate_variables "h" 0%float 0
            Reference.fresh)
     = fst (QuantumCalculator.calculate_gate_variables "H" 1%float 0
              Reference.fresh).
Proof.
  split; [reflexivity|].
  split; [right; left; reflexivity|].
  apply (calculate_gate_variables_case_and_angle "h" "H" 0%float 1%float 0
           Reference.fresh); [reflexivity | right; left; reflexivity].
Defined.

Lemma grovers_hands_oracle_to_library_witness :
  grover_module Reference.fresh = true
  /\ (2 <= String.length "101")%nat
  /\ QuantumCalculator.grovers_body Reference.grover_library "101"
       (len "101") Reference.fresh
     = (iterations ← Reference.grover_library (grover_oracle "101");
        logging INFO (MsgGroverIterations iterations);;
        mret iterations) (count_circuit Reference.fresh)
  /\ forall iterations w1,
       Reference.grover_library (grover_oracle "101")
         (count_circuit Reference.fresh) = (Ok iterations, w1) ->
       QuantumCalculator.grovers_speed_between_qubits
         Reference.grover_library "101" (len "101") Reference.fresh
       = (Ok iterations, add_log INFO (MsgGroverIterations iterations) w1).
Proof.
  split; [reflexivity | split; [simpl; lia|]].
  apply (grovers_hands_oracle_to_library Reference.grover_library "101"
           Reference.fresh); [reflexivity | simpl; lia].
Defined.

Lemma grovers_needs_two_qubits_witness :
  1 < 2
  /\ exists e w',
       QuantumCalculator.grovers_speed_between_qubits
         Reference.grover_library "0" 1 Reference.fresh = (Raise e, w').
Proof.
  split; [lia|].
  apply (grovers_needs_two_qubits Reference.grover_library "0" 1
           Reference.fresh).
  lia.
Defined.

Lemma size_handlers_refuse_bad_entries_witness :
  positive_sizes (Some 3) (Some 0) = false
  /\ QuantumVerseCalculatorGUI.observe_qubits Reference.final_state
       Reference.shot (Some 3) (Some 0) Reference.fresh
     = (QuantumVerseCalculatorGUI.MessageBox
          (QuantumVerseCalculatorGUI.InvalidInput
             QuantumVerseCalculatorGUI.positive_integers), Reference.fresh)
  /\ QuantumVerseCalculatorGUI.calculate_error_rate Reference.final_state
       Reference.shot (Some 3) (Some 0) Reference.fresh
     = (QuantumVerseCalculatorGUI.MessageBox
          (QuantumVerseCalculatorGUI.InvalidInput
             QuantumVerseCalculatorGUI.positive_integers), Reference.fresh).
Proof.
  split; [reflexivity|].
  apply (size_handlers_refuse_bad_entries Reference.final_state
           Reference.shot (Some 3) (Some 0) Reference.fresh).
  reflexivity.
Defined.

Lemma size_handlers_display_witness :
  positive_sizes (Some 2) (Some 16) = true
  /\ 2 <= max_qubits Reference.fresh /\ 16 <= max_shots Reference.fresh
  /\ (exists counts w',
        QuantumVerseCalculatorGUI.observe_qubits Reference.final_state
          Reference.shot (Some 2) (Some 16) Reference.fresh
        = (QuantumVerseCalculatorGUI.Displayed counts, w')
        /\ counts = AerSimulator.sampled Reference.shot Reference.fresh
                      (h_measure_circuit (Z.to_nat 2)) 16
        /\ Z.of_nat (sum_values counts) = 16
        /\ circuits w' = S (circuits Reference.fresh)
        /\ runs w' = S (runs Reference.fresh))
  /\ (exists error_rate w',
        QuantumVerseCalculatorGUI.calculate_error_rate Reference.final_state
          Reference.shot (Some 2) (Some 16) Reference.fresh
        = (QuantumVerseCalculatorGUI.Displayed error_rate, w')
        /\ (0 <= error_rate)%Q /\ (error_rate <= 1)%Q
        /\ circuits w' = S (circuits Reference.fresh)
        /\ runs w' = S (runs Reference.fresh)).
Proof.
  assert (Hfits : 2 <= max_qubits Reference.fresh) by (vm_compute; discriminate).
  assert (Hmany : 16 <= max_shots Reference.fresh) by (vm_compute; discriminate).
  split; [reflexivity | split; [exact Hfits | split; [exact Hmany|]]].
  apply (size_handlers_display Reference.final_state Reference.shot 2 16
           Reference.fresh); [reflexivity | exact Hfits | exact Hmany].
Defined.

Lemma apply_gate_refuses_bad_entries_witness :
  gate_entries_pass (Some 0%float) (Some (-1)) = false
  /\ QuantumVerseCalculatorGUI.apply_gate Reference.final_state
       Reference.shot "H" (Some 0%float) (Some (-1)) Reference.fresh
     = (QuantumVerseCalculatorGUI.MessageBox
          (QuantumVerseCalculatorGUI.InvalidInput
             "Please enter a valid qubit index and angle."),
        Reference.fresh).
Proof.
  split; [reflexivity|].
  apply (apply_gate_refuses_bad_entries Reference.final_state Reference.shot
           "H" (Some 0%float) (Some (-1)) Reference.fresh).
  reflexivity.
Defined.


Lemma run_grovers_refuses_bad_entries_witness :
  grover_entries_pass "12" (Some 2) = false
  /\ QuantumVerseCalculatorGUI.run_grovers Reference.grover_library "12"
       (Some 2) Reference.fresh
     = (QuantumVerseCalculatorGUI.MessageBox
          (QuantumVerseCalculatorGUI.InvalidInput
             "Please enter a valid binary target state and positive number of qubits."),
        Reference.fresh).
Proof.
  split; [reflexivity|].
  apply (run_grovers_refuses_bad_entries Reference.grover_library "12"
           (Some 2) Reference.fresh).
  reflexivity.
Defined.

Lemma run_grovers_without_module_witness :
  let w := Reference.world (fun _ => 7) false in
  grover_module w = false
  /\ grover_entries_pass "11" (Some 2) = true
  /\ QuantumVerseCalculatorGUI.run_grovers Reference.grover_library "11"
       (Some 2) w
     = (QuantumVerseCalculatorGUI.MessageBox
          (QuantumVerseCalculatorGUI.ImportErrorBox
             "Grover's algorithm module not found. Please update Qiskit using 'pip install --upgrade qiskit'."),
        add_log ERROR
          (MsgText
             "Grover's algorithm module not found. Please update Qiskit using 'pip install --upgrade qiskit'.")
          (add_log ERROR MsgGroverModuleNotFound w)).
Proof.
  intros w. split; [reflexivity | split; [reflexivity|]].
  apply (run_grovers_without_module Reference.grover_library "11" 2 w);
    reflexivity.
Defined.

Lemma run_grovers_length_mismatch_witness :
  grover_module Reference.fresh = true /\ len "1" <> 3
  /\ exists w',
       QuantumVerseCalculatorGUI.run_grovers Reference.grover_library "1"
         (Some 3) Reference.fresh
       = (QuantumVerseCalculatorGUI.MessageBox
            (QuantumVerseCalculatorGUI.InvalidInput
               "Please enter a valid binary target state and positive number of qubits."),
          w')
       /\ circuits w' = circuits Reference.fresh.
Proof.
  split; [reflexivity | split; [vm_compute; lia|]].
  apply (run_grovers_length_mismatch Reference.grover_library "1" 3
           Reference.fresh); [reflexivity | vm_compute; lia].
Defined.

Lemma change_theme_restores_startup_witness :
  "Dark" <> "Light"
  /\ Look.change_theme "Dark" (Look.change_theme "Light" (Look.startup ∅))
     = Look.startup ∅.
Proof.
  split; [discriminate|].
  apply (change_theme_restores_startup "Light" "Dark" ∅). discriminate.
Defined.

(** The light theme does change the startup window. *)
Example light_theme_differs :
  Look.change_theme "Light" (Look.startup ∅) <> Look.startup ∅.
Proof. intros Heq. apply (f_equal Look.master_bg) in Heq. discriminate. Qed.
